(** * The LINE webhook ingestion pipeline of [functions/src/index.ts]

    A shallow embedding of [lineWebhook] and of the two helpers it calls,
    [getUserDisplayName] and [appendToGoogleSheet], together with the
    JavaScript operations they rely on (property access, strict equality,
    [||], template literals, [JSON.stringify], [Date.prototype.toISOString]).

    The handler works on the parsed request body, an untyped JSON value,
    so the embedding keeps the values untyped as well. *)

From Stdlib Require Import ZArith List String Ascii Bool Lia DecimalString.
Import ListNotations.
Local Open Scope string_scope.
Local Open Scope Z_scope.
Local Set Warnings "-register-all".

(** ** JavaScript values

    The values the handler sees all come out of a JSON document, plus
    [undefined] (the result of reading a property that is not there).
    A number is a [Z]: the model covers the integer-valued numbers only.
    An object is the list of its own properties in creation order, each
    key once. *)

Inductive jsval : Type :=
| JUndefined
| JNull
| JBool (b : bool)
| JNum (n : Z)
| JStr (s : string)
| JArr (elems : list jsval)
| JObj (props : list (string * jsval)).

(** Exceptions the handler can meet. [ExternalError] is whatever a remote
    call (profile lookup, sheet append, the signature library) throws. *)
Inductive exn : Type :=
| TypeError (msg : string)
| RangeError (msg : string)
| ExternalError (msg : string).

(** The result of evaluating an expression: a value or a thrown exception. *)
Inductive result (A : Type) : Type :=
| Ok (a : A)
| Throw (e : exn).
Arguments Ok {A} a.
Arguments Throw {A} e.

Definition rbind {A B} (r : result A) (k : A -> result B) : result B :=
  match r with
  | Ok a => k a
  | Throw e => Throw e
  end.

Module JS.

(** Own-property lookup in an object's property list. *)
Fixpoint lookup (k : string) (props : list (string * jsval)) : option jsval :=
  match props with
  | [] => None
  | (k', v) :: rest => if String.eqb k k' then Some v else lookup k rest
  end.

(** [o.k]. Reading a property of [undefined] or [null] throws a TypeError;
    a missing property reads as [undefined]. The handler only reads the
    keys events, type, source, userId, message, id, timestamp, text,
    fileName, address, stickerId and displayName, none of which is
    provided by a built-in prototype, so primitives and arrays answer
    [undefined] for all of them. *)
Definition getProp (o : jsval) (k : string) : result jsval :=
  match o with
  | JUndefined => Throw (TypeError "Cannot read properties of undefined")
  | JNull => Throw (TypeError "Cannot read properties of null")
  | JObj props =>
      match lookup k props with
      | Some v => Ok v
      | None => Ok JUndefined
      end
  | _ => Ok JUndefined
  end.

(** [v === "s"] for a string literal [s]. *)
Definition strictEqStr (v : jsval) (s : string) : bool :=
  match v with
  | JStr s' => String.eqb s' s
  | _ => false
  end.

(** ToBoolean. *)
Definition truthy (v : jsval) : bool :=
  match v with
  | JUndefined | JNull => false
  | JBool b => b
  | JNum n => negb (n =? 0)
  | JStr s => negb (String.eqb s "")
  | JArr _ | JObj _ => true
  end.

(** [a || b]. *)
Definition or_else (a b : jsval) : jsval := if truthy a then a else b.

(** Number::toString for an integer (exact below 10^21 in magnitude, where
    JavaScript prints plain decimal digits). *)
Definition numToString (n : Z) : string :=
  NilZero.string_of_int (Z.to_int n).

Definition hasOwn (k : string) (props : list (string * jsval)) : bool :=
  match lookup k props with Some _ => true | None => false end.

(** [sep]-separated concatenation, as [Array.prototype.join] does it. *)
Fixpoint join (sep : string) (l : list string) : string :=
  match l with
  | [] => ""
  | [s] => s
  | s :: rest => s ++ sep ++ join sep rest
  end.

(** Sequencing a list of results, left to right; the first throw wins. *)
Fixpoint sequence {A} (l : list (result A)) : result (list A) :=
  match l with
  | [] => Ok []
  | r :: rest =>
      rbind r (fun a => rbind (sequence rest) (fun l' => Ok (a :: l')))
  end.

(** ToString, as a template literal applies it to an interpolated value.
    An array prints as its elements joined by commas, [null] and
    [undefined] elements as the empty string. A plain object prints as
    [[object Object]] through [Object.prototype.toString]; when it has an
    own property called [toString] (never a function in JSON data) the
    conversion finds no usable method and throws a TypeError. *)
Fixpoint toString (v : jsval) : result string :=
  match v with
  | JUndefined => Ok "undefined"
  | JNull => Ok "null"
  | JBool true => Ok "true"
  | JBool false => Ok "false"
  | JNum n => Ok (numToString n)
  | JStr s => Ok s
  | JArr elems =>
      rbind
        (sequence
           (map (fun e =>
                   match e with
                   | JUndefined | JNull => Ok ""
                   | _ => toString e
                   end) elems))
        (fun parts => Ok (join "," parts))
  | JObj props =>
      if hasOwn "toString" props
      then Throw (TypeError "Cannot convert object to primitive value")
      else Ok "[object Object]"
  end.

End JS.

(** ** JSON text: [JSON.stringify] and [JSON.parse] *)

Module JSON.

Definition hexDigit (n : Z) : ascii :=
  if n <? 10 then ascii_of_nat (48 + Z.to_nat n)
  else ascii_of_nat (87 + Z.to_nat n).

(** QuoteJSONString on one character: the two-character escapes, a
    [\u00xx] escape for the other control characters, the character itself
    otherwise. Strings are kept as their UTF-8 bytes. *)
Definition quoteChar (c : ascii) : string :=
  let n := Z.of_nat (nat_of_ascii c) in
  if n =? 8 then "\b"
  else if n =? 9 then "\t"
  else if n =? 10 then "\n"
  else if n =? 12 then "\f"
  else if n =? 13 then "\r"
  else if n =? 34 then String "\" (String c "")
  else if n =? 92 then "\\"
  else if n <? 32 then
    "\u00" ++ String (hexDigit (n / 16)) (String (hexDigit (n mod 16)) "")
  else String c "".

Fixpoint quoteBody (s : string) : string :=
  match s with
  | EmptyString => ""
  | String c rest => quoteChar c ++ quoteBody rest
  end.

Definition quote (s : string) : string :=
  String "034" (quoteBody s ++ String "034" "").

Definition isDigit (c : ascii) : bool :=
  let n := nat_of_ascii c in (48 <=? n)%nat && (n <=? 57)%nat.

Fixpoint allDigits (s : string) : bool :=
  match s with
  | EmptyString => true
  | String c rest => isDigit c && allDigits rest
  end.

Fixpoint digitsValue (acc : Z) (s : string) : Z :=
  match s with
  | EmptyString => acc
  | String c rest =>
      digitsValue (10 * acc + (Z.of_nat (nat_of_ascii c) - 48)) rest
  end.

(** A property key is an array index when it is the canonical decimal
    form of an integer below 2^32 - 1. *)
Definition arrayIndex (k : string) : option Z :=
  match k with
  | EmptyString => None
  | String c rest =>
      if allDigits k && (String.eqb k "0" || negb (Ascii.eqb c "0"))
      then
        let n := digitsValue 0 k in
        if n <? 4294967295 then Some n else None
      else None
  end.

Fixpoint insertIndexed {A} (n : Z) (x : A) (l : list (Z * A)) : list (Z * A) :=
  match l with
  | [] => [(n, x)]
  | (m, y) :: rest =>
      if n <? m then (n, x) :: l else (m, y) :: insertIndexed n x rest
  end.

Fixpoint indexedProps {A} (props : list (string * A)) : list (Z * A) :=
  match props with
  | [] => []
  | (k, x) :: rest =>
      match arrayIndex k with
      | Some n => insertIndexed n x (indexedProps rest)
      | None => indexedProps rest
      end
  end.

Fixpoint namedProps {A} (props : list (string * A)) : list A :=
  match props with
  | [] => []
  | (k, x) :: rest =>
      match arrayIndex k with
      | Some _ => namedProps rest
      | None => x :: namedProps rest
      end
  end.

(** The order in which an object's own properties are enumerated:
    array-index keys by ascending value, then the other keys in creation
    order. *)
Definition enumerate {A} (props : list (string * A)) : list A :=
  map snd (indexedProps props) ++ namedProps props.

(** [JSON.stringify(v)] with no replacer and no indentation. [None] is the
    JavaScript result [undefined]. Inside an array [undefined] prints as
    [null]; inside an object a property whose value is [undefined] is
    left out. *)
Fixpoint stringify (v : jsval) : option string :=
  match v with
  | JUndefined => None
  | JNull => Some "null"
  | JBool true => Some "true"
  | JBool false => Some "false"
  | JNum n => Some (JS.numToString n)
  | JStr s => Some (quote s)
  | JArr elems =>
      Some ("[" ++
            JS.join ","
              (map (fun e =>
                      match stringify e with
                      | Some s => s
                      | None => "null"
                      end) elems) ++ "]")
  | JObj props =>
      let members :=
        map (fun kv => (fst kv,
                        match stringify (snd kv) with
                        | Some s => Some (quote (fst kv) ++ ":" ++ s)
                        | None => None
                        end)) props in
      Some ("{" ++
            JS.join ","
              (flat_map (fun m => match m with Some s => [s] | None => [] end)
                 (enumerate members)) ++ "}")
  end.

Definition isWs (c : ascii) : bool :=
  let n := nat_of_ascii c in
  ((n =? 32) || (n =? 9) || (n =? 10) || (n =? 13))%nat.

Fixpoint skipWs (s : string) : string :=
  match s with
  | String c rest => if isWs c then skipWs rest else s
  | EmptyString => s
  end.

Fixpoint stripPrefix (p s : string) : option string :=
  match p, s with
  | EmptyString, _ => Some s
  | String a p', String b s' => if Ascii.eqb a b then stripPrefix p' s' else None
  | String _ _, EmptyString => None
  end.

(** The character a two-character escape stands for. The [\u] escape is
    not part of the modelled fragment. *)
Definition unescape (c : ascii) : option ascii :=
  match c with
  | "034"%char => Some "034"%char
  | "\"%char => Some "\"%char
  | "/"%char => Some "/"%char
  | "b"%char => Some "008"%char
  | "f"%char => Some "012"%char
  | "n"%char => Some "010"%char
  | "r"%char => Some "013"%char
  | "t"%char => Some "009"%char
  | _ => None
  end.

(** The rest of a string literal, after its opening quote: the string it
    denotes and the text after the closing quote. *)
Fixpoint parseStringBody (s : string) : option (string * string) :=
  match s with
  | EmptyString => None
  | String c rest =>
      let n := nat_of_ascii c in
      if (n =? 34)%nat then Some ("", rest)
      else if (n =? 92)%nat then
        match rest with
        | String e rest' =>
            match unescape e, parseStringBody rest' with
            | Some ch, Some (body, r) => Some (String ch body, r)
            | _, _ => None
            end
        | EmptyString => None
        end
      else if (n <? 32)%nat then None
      else
        match parseStringBody rest with
        | Some (body, r) => Some (String c body, r)
        | None => None
        end
  end.

Fixpoint takeDigits (s : string) : string * string :=
  match s with
  | String c rest =>
      if isDigit c
      then let '(ds, r) := takeDigits rest in (String c ds, r)
      else ("", s)
  | EmptyString => ("", "")
  end.

(** An integer literal. A fraction, an exponent, or an integer too large
    to be held exactly by a JavaScript number (above 2^53 in magnitude) is
    not part of the modelled fragment. *)
Definition parseNumber (s : string) : option (Z * string) :=
  let '(neg, s1) :=
    match s with
    | String "-" r => (true, r)
    | _ => (false, s)
    end in
  let '(ds, rest) := takeDigits s1 in
  match ds with
  | EmptyString => None
  | String d ds' =>
      if Ascii.eqb d "0" && negb (String.eqb ds' "") then None
      else
        let n := digitsValue 0 ds in
        let v := if neg : bool then - n else n in
        match rest with
        | String "." _ | String "e" _ | String "E" _ => None
        | _ => if n <=? 9007199254740992 then Some (v, rest) else None
        end
  end.

(** Defining a property while parsing: a repeated key keeps its place and
    takes the later value. *)
Fixpoint setProp (k : string) (v : jsval) (props : list (string * jsval))
  : list (string * jsval) :=
  match props with
  | [] => [(k, v)]
  | (k', v') :: rest =>
      if String.eqb k k' then (k, v) :: rest else (k', v') :: setProp k v rest
  end.

(** A recursive-descent reader for the JSON grammar restricted to integer
    numbers and strings without [\u] escapes. It returns the value and the
    remaining text. *)
Fixpoint parseValue (fuel : nat) (s : string) {struct fuel}
  : option (jsval * string) :=
  match fuel with
  | O => None
  | S f =>
      match skipWs s with
      | EmptyString => None
      | String "{" rest =>
          match skipWs rest with
          | String "}" r => Some (JObj [], r)
          | _ => parseMembers f rest []
          end
      | String "[" rest =>
          match skipWs rest with
          | String "]" r => Some (JArr [], r)
          | _ => parseElems f rest []
          end
      | String "034" rest =>
          match parseStringBody rest with
          | Some (str, r) => Some (JStr str, r)
          | None => None
          end
      | String "t" _ =>
          option_map (fun r => (JBool true, r)) (stripPrefix "true" (skipWs s))
      | String "f" _ =>
          option_map (fun r => (JBool false, r)) (stripPrefix "false" (skipWs s))
      | String "n" _ =>
          option_map (fun r => (JNull, r)) (stripPrefix "null" (skipWs s))
      | String _ _ =>
          option_map (fun '(n, r) => (JNum n, r)) (parseNumber (skipWs s))
      end
  end
with parseElems (fuel : nat) (s : string) (acc : list jsval) {struct fuel}
  : option (jsval * string) :=
  match fuel with
  | O => None
  | S f =>
      match parseValue f s with
      | Some (v, r) =>
          match skipWs r with
          | String "," r' => parseElems f r' (acc ++ [v])
          | String "]" r' => Some (JArr (acc ++ [v]), r')
          | _ => None
          end
      | None => None
      end
  end
with parseMembers (fuel : nat) (s : string) (acc : list (string * jsval))
       {struct fuel} : option (jsval * string) :=
  match fuel with
  | O => None
  | S f =>
      match skipWs s with
      | String "034" r0 =>
          match parseStringBody r0 with
          | Some (k, r1) =>
              match skipWs r1 with
              | String ":" r2 =>
                  match parseValue f r2 with
                  | Some (v, r3) =>
                      match skipWs r3 with
                      | String "," r4 => parseMembers f r4 (setProp k v acc)
                      | String "}" r4 => Some (JObj (setProp k v acc), r4)
                      | _ => None
                      end
                  | None => None
                  end
              | _ => None
              end
          | None => None
          end
      | _ => None
      end
  end.

(** [JSON.parse(text)] on the modelled fragment; [None] is a SyntaxError
    or a text outside the fragment. This is what the HTTP framework runs
    on the raw request body to produce [request.body]. *)
Definition parse (text : string) : option jsval :=
  match parseValue (2 * String.length text + 2) text with
  | Some (v, r) =>
      match skipWs r with
      | EmptyString => Some v
      | String _ _ => None
      end
  | None => None
  end.

End JSON.

(** ** Dates: [new Date(v).toISOString()] *)

Module Date.

Definition msPerDay : Z := 86400000.

(** The largest magnitude of a valid time value, in milliseconds. *)
Definition maxTime : Z := 8640000000000000.

(** TimeClip; [None] is NaN, the time value of an invalid date. *)
Definition timeClip (t : Z) : option Z :=
  if Z.abs t <=? maxTime then Some t else None.

(** The time value of [new Date(v)]. A number is taken as milliseconds
    since the epoch; [undefined] is NaN, [null] and the booleans convert to
    0 and 1; a string goes through the host's date parser [dateParse]
    (whose accepted formats are implementation-defined, so it is a
    parameter); an array or object is first converted to a string. *)
Definition timeValue (dateParse : string -> option Z) (v : jsval)
  : result (option Z) :=
  let parsed s :=
    match dateParse s with
    | Some t => timeClip t
    | None => None
    end in
  match v with
  | JUndefined => Ok None
  | JNull => Ok (Some 0)
  | JBool b => Ok (Some (if b then 1 else 0))
  | JNum n => Ok (timeClip n)
  | JStr s => Ok (parsed s)
  | JArr _ | JObj _ => rbind (JS.toString v) (fun s => Ok (parsed s))
  end.

(** Year, month and day of month of a day number counted from
    1970-01-01, in the proleptic Gregorian calendar. *)
Definition civil (days : Z) : Z * Z * Z :=
  let z := days + 719468 in
  let era := z / 146097 in
  let doe := z - era * 146097 in
  let yoe := (doe - doe / 1460 + doe / 36524 - doe / 146096) / 365 in
  let doy := doe - (365 * yoe + yoe / 4 - yoe / 100) in
  let mp := (5 * doy + 2) / 153 in
  let d := doy - (153 * mp + 2) / 5 + 1 in
  let m := if mp <? 10 then mp + 3 else mp - 9 in
  let y := yoe + era * 400 in
  (if m <=? 2 then y + 1 else y, m, d).

(** The [w] low decimal digits of [n], most significant first. *)
Fixpoint pad (w : nat) (n : Z) : string :=
  match w with
  | O => ""
  | S w' => pad w' (n / 10) ++ String (ascii_of_nat (48 + Z.to_nat (n mod 10))) ""
  end.

(** Four digits for the years 0 to 9999, a sign and six digits otherwise. *)
Definition isoYear (y : Z) : string :=
  if (0 <=? y) && (y <=? 9999) then pad 4 y
  else (if y <? 0 then "-" else "+") ++ pad 6 (Z.abs y).

(** The text [toISOString] prints for a valid time value. *)
Definition isoFormat (t : Z) : string :=
  let '(y, m, d) := civil (t / msPerDay) in
  let r := t mod msPerDay in
  isoYear y ++ "-" ++ pad 2 m ++ "-" ++ pad 2 d ++ "T" ++
  pad 2 (r / 3600000) ++ ":" ++ pad 2 (r / 60000 mod 60) ++ ":" ++
  pad 2 (r / 1000 mod 60) ++ "." ++ pad 3 (r mod 1000) ++ "Z".

(** [new Date(v).toISOString()]: a RangeError on an invalid date. *)
Definition toISOString (dateParse : string -> option Z) (v : jsval)
  : result string :=
  rbind (timeValue dateParse v)
    (fun tv =>
       match tv with
       | Some t => Ok (isoFormat t)
       | None => Throw (RangeError "Invalid time value")
       end).

End Date.

(** ** The outside world

    The handler talks to three collaborators that are not part of the
    repository: the signature check of the LINE SDK, the profile endpoint
    of the LINE API and the append endpoint of the Sheets API. Their calls
    are recorded in a trace, and their answers are given by a [World],
    which may answer according to everything that happened before. *)

Inductive effect : Type :=
| GetProfile (userId : jsval)
| SheetsAppend (row : list jsval)
| Log (level msg : string).

Record World : Type := {
  (** [process.env.LINE_CHANNEL_SECRET || ""] *)
  LINE_CHANNEL_SECRET : string;
  (** [validateSignature(body, channelSecret, signature)] of the LINE SDK;
      the body is [None] when [JSON.stringify] produced [undefined], the
      signature is [None] when the request has no such header. *)
  validateSignature : option string -> string -> option string -> result bool;
  (** the host's [Date.parse] *)
  dateParse : string -> option Z;
  (** [lineClient.getProfile(userId)]: the profile object, or a failure *)
  getProfile : list effect -> jsval -> result jsval;
  (** [sheets.spreadsheets.values.append] of one row: done, or a failure *)
  sheetsAppend : list effect -> list jsval -> result unit
}.

(** What a run has done so far: the calls made, oldest first, and the rows
    the sheet has accepted, in the order it accepted them. *)
Record State : Type := {
  trace : list effect;
  sheet : list (list jsval)
}.

(** ** A state and exception monad for the asynchronous code

    Every [await] in the source is sequential, so a computation is a
    function from the state before to a result and the state after. The
    state survives a throw: what was done stays done. *)

Definition M (A : Type) : Type := State -> result A * State.

Definition ret {A} (a : A) : M A := fun s => (Ok a, s).

Definition bind {A B} (m : M A) (k : A -> M B) : M B :=
  fun s =>
    match m s with
    | (Ok a, s') => k a s'
    | (Throw e, s') => (Throw e, s')
    end.

Definition throw {A} (e : exn) : M A := fun s => (Throw e, s).

Definition lift {A} (r : result A) : M A := fun s => (r, s).

(** [try { m } catch (error) { h error }] *)
Definition tryCatch {A} (m : M A) (h : exn -> M A) : M A :=
  fun s =>
    match m s with
    | (Ok a, s') => (Ok a, s')
    | (Throw e, s') => h e s'
    end.

Definition emit (e : effect) : M unit :=
  fun s => (Ok tt, {| trace := trace s ++ [e]; sheet := sheet s |}).

Declare Scope js_scope.
Delimit Scope js_scope with js.
Notation "x <- m ;; k" := (bind m (fun x => k))
  (at level 61, m at next level, right associativity) : js_scope.
Notation "m ;; k" := (bind m (fun _ => k))
  (at level 61, right associativity) : js_scope.
Local Open Scope js_scope.

(** [for (const x of l) { body x }] over the elements already drawn from
    the iterable. *)
Fixpoint forOf {A} (body : A -> M unit) (l : list A) : M unit :=
  match l with
  | [] => ret tt
  | x :: rest => body x ;; forOf body rest
  end.

(** The elements a [for ... of] loop draws from a value: those of an
    array, the characters of a string (one per byte here; each of them is
    a string, which is all the loop body looks at); any other JSON value
    is not iterable. *)
Definition iterate (v : jsval) : result (list jsval) :=
  match v with
  | JArr elems => Ok elems
  | JStr s => Ok (map (fun c => JStr (String c "")) (list_ascii_of_string s))
  | _ => Throw (TypeError "events is not iterable")
  end.

(** ** The request and the response *)

(** The request as the functions framework hands it over: the header
    table, the bytes that arrived ([request.rawBody]) and the body the
    framework parsed out of them ([request.body]). *)
Record Request : Type := {
  headers : list (string * string);
  rawBody : string;
  body : jsval
}.

Fixpoint header (name : string) (hs : list (string * string)) : option string :=
  match hs with
  | [] => None
  | (k, v) :: rest => if String.eqb name k then Some v else header name rest
  end.

(** [response.status(code).send(text)] *)
Record Response : Type := {
  status : Z;
  sent : string
}.

(** [interface LineMessage]. The fields hold whatever the event held: the
    declared types are not checked at run time. *)
Record LineMessage : Type := {
  timestamp : jsval;
  userId : jsval;
  displayName : jsval;
  messageId : jsval;
  message : jsval;
  messageType : jsval
}.

(** The six cells of the row [appendToGoogleSheet] builds, given the
    text of the date. *)
Definition rowOf (iso : string) (data : LineMessage) : list jsval :=
  [JStr iso; userId data; displayName data; messageId data; message data;
   messageType data].

Section Handler.

Variable W : World.

Definition log (level msg : string) : M unit := emit (Log level msg).

(** The remote profile lookup: the call is recorded, the world answers. *)
Definition callGetProfile (uid : jsval) : M jsval :=
  fun s =>
    (getProfile W (trace s) uid,
     {| trace := trace s ++ [GetProfile uid]; sheet := sheet s |}).

(** The remote append: the call is recorded; the row is in the sheet
    exactly when the world reports success. *)
Definition callSheetsAppend (row : list jsval) : M unit :=
  fun s =>
    match sheetsAppend W (trace s) row with
    | Ok tt =>
        (Ok tt, {| trace := trace s ++ [SheetsAppend row];
                   sheet := sheet s ++ [row] |})
    | Throw e =>
        (Throw e, {| trace := trace s ++ [SheetsAppend row];
                     sheet := sheet s |})
    end.

(** [appendToGoogleSheet], lines 221-256. Building the credentials and the
    client makes no request and is left out. *)
Definition appendToGoogleSheet (data : LineMessage) : M unit :=
  tryCatch
    (iso <- lift (Date.toISOString (dateParse W) (timestamp data)) ;;
     callSheetsAppend (rowOf iso data) ;;
     log "info" "Data appended to Google Sheet")
    (fun error =>
       log "error" "Error appending to Google Sheet" ;;
       throw error).

(** [getUserDisplayName], lines 263-275. *)
Definition getUserDisplayName (uid : jsval) : M jsval :=
  tryCatch
    (profile <- callGetProfile uid ;;
     lift (JS.getProp profile "displayName"))
    (fun error =>
       log "error" "Error getting user profile" ;;
       ret (JStr "Unknown User")).

(** The [switch] of lines 296-323: the text of the row and the message
    type, for an event whose [message] has already been read once. *)
Definition normalize (event : jsval) : result (jsval * jsval) :=
  rbind (JS.getProp event "message") (fun m =>
  rbind (JS.getProp m "type") (fun messageType =>
  let template prefix v :=
    rbind (JS.toString v) (fun s => Ok (JStr (prefix ++ s))) in
  rbind
    (if JS.strictEqStr messageType "text" then JS.getProp m "text"
     else if JS.strictEqStr messageType "image" then Ok (JStr "Image sent")
     else if JS.strictEqStr messageType "video" then Ok (JStr "Video sent")
     else if JS.strictEqStr messageType "audio" then Ok (JStr "Audio sent")
     else if JS.strictEqStr messageType "file" then
       rbind (JS.getProp m "fileName") (fun fileName =>
       template "File sent: " (JS.or_else fileName (JStr "Unknown")))
     else if JS.strictEqStr messageType "location" then
       rbind (JS.getProp m "address") (template "Location: ")
     else if JS.strictEqStr messageType "sticker" then
       rbind (JS.getProp m "stickerId") (template "Sticker: ")
     else Ok (JStr "Unsupported message type"))
    (fun message => Ok (message, messageType)))).

(** The body of the loop, lines 291-344. *)
Definition handleEvent (event : jsval) : M unit :=
  ty <- lift (JS.getProp event "type") ;;
  if JS.strictEqStr ty "message" then
    source <- lift (JS.getProp event "source") ;;
    userId <- lift (JS.getProp source "userId") ;;
    m <- lift (JS.getProp event "message") ;;
    messageId <- lift (JS.getProp m "id") ;;
    timestamp <- lift (JS.getProp event "timestamp") ;;
    mt <- lift (normalize event) ;;
    displayName <- getUserDisplayName userId ;;
    appendToGoogleSheet
      {| timestamp := timestamp;
         userId := userId;
         displayName := displayName;
         messageId := messageId;
         message := fst mt;
         messageType := snd mt |}
  else ret tt.

(** What the handler passes to the signature check as the signed body. *)
Definition verifierBody (request : Request) : option string :=
  JSON.stringify (body request).

(** [lineWebhook], lines 277-352. *)
Definition lineWebhook (request : Request) : M Response :=
  tryCatch
    (let signature := header "x-line-signature" (headers request) in
     valid <- lift (validateSignature W (verifierBody request)
                      (LINE_CHANNEL_SECRET W) signature) ;;
     if negb valid then
       log "error" "Invalid LINE signature" ;;
       ret {| status := 401; sent := "Unauthorized" |}
     else
       events <- lift (JS.getProp (body request) "events") ;;
       elems <- lift (iterate events) ;;
       forOf handleEvent elems ;;
       ret {| status := 200; sent := "OK" |})
    (fun error =>
       log "error" "Error processing LINE webhook" ;;
       ret {| status := 500; sent := "Internal Server Error" |}).

End Handler.

(** ** Reading the handler's code as data

    Auxiliary definitions used to state the properties. *)

(** What lines 291-323 read off an event before any remote call. *)
Record EventFields : Type := {
  ef_userId : jsval;
  ef_messageId : jsval;
  ef_timestamp : jsval;
  ef_message : jsval;
  ef_messageType : jsval
}.

(** The part of the loop body that makes no remote call: [Ok None] for an
    event that is skipped, the fields read for a message event, or the
    exception one of the reads throws. *)
Definition readEvent (event : jsval) : result (option EventFields) :=
  rbind (JS.getProp event "type") (fun ty =>
  if JS.strictEqStr ty "message" then
    rbind (JS.getProp event "source") (fun source =>
    rbind (JS.getProp source "userId") (fun userId =>
    rbind (JS.getProp event "message") (fun m =>
    rbind (JS.getProp m "id") (fun messageId =>
    rbind (JS.getProp event "timestamp") (fun timestamp =>
    rbind (normalize event) (fun mt =>
    Ok (Some {| ef_userId := userId;
                ef_messageId := messageId;
                ef_timestamp := timestamp;
                ef_message := fst mt;
                ef_messageType := snd mt |})))))))
  else Ok None).

(** The [lineMessage] object of lines 327-334. *)
Definition recordOf (p : EventFields) (name : jsval) : LineMessage :=
  {| timestamp := ef_timestamp p;
     userId := ef_userId p;
     displayName := name;
     messageId := ef_messageId p;
     message := ef_message p;
     messageType := ef_messageType p |}.

(** [event.type === "message"] *)
Definition isMessage (event : jsval) : bool :=
  match JS.getProp event "type" with
  | Ok ty => JS.strictEqStr ty "message"
  | Throw _ => false
  end.

(** The events the loop of [lineWebhook] runs over. *)
Definition eventsOf (request : Request) : result (list jsval) :=
  rbind (JS.getProp (body request) "events") iterate.

Definition isLookup (e : effect) : bool :=
  match e with GetProfile _ => true | _ => false end.

Definition isAppend (e : effect) : bool :=
  match e with SheetsAppend _ => true | _ => false end.

(** The number of profile lookups and of append requests in a trace. *)
Definition lookups (tr : list effect) : nat := List.length (filter isLookup tr).
Definition appends (tr : list effect) : nat := List.length (filter isAppend tr).

(** The columns of a row, by position. *)
Definition column (i : nat) (row : list jsval) : jsval := nth i row JUndefined.

Definition Unauthorized : Response := {| status := 401; sent := "Unauthorized" |}.
Definition OK : Response := {| status := 200; sent := "OK" |}.
Definition InternalServerError : Response :=
  {| status := 500; sent := "Internal Server Error" |}.

(** The effects and the row of one message event handled to the end: a
    lookup, the error log when the lookup failed, the append and its log. *)
Definition eventRun (W : World) (event : jsval) (seg : list effect)
  (row : list jsval) : Prop :=
  exists p iso name,
    readEvent event = Ok (Some p) /\
    Date.toISOString (dateParse W) (ef_timestamp p) = Ok iso /\
    row = rowOf iso (recordOf p name) /\
    (seg = [GetProfile (ef_userId p); SheetsAppend row;
            Log "info" "Data appended to Google Sheet"] \/
     seg = [GetProfile (ef_userId p);
            Log "error" "Error getting user profile"; SheetsAppend row;
            Log "info" "Data appended to Google Sheet"]).

(** ** The specification's vocabulary *)

(** The seven message-type tags of the table in section 4.2. *)
Definition recognizedTags : list string :=
  ["text"; "image"; "video"; "audio"; "file"; "location"; "sticker"].

(** The closed set of kinds of section 3. *)
Definition closedKinds : list jsval :=
  map JStr (recognizedTags ++ ["unsupported"]).

Definition recognized (tag : jsval) : Prop :=
  exists t, In t recognizedTags /\ tag = JStr t.

(** A property of a message object, [undefined] when it is absent. *)
Definition field (props : list (string * jsval)) (k : string) : jsval :=
  match JS.lookup k props with
  | Some v => v
  | None => JUndefined
  end.

(** A field as the transport's schema declares the interpolated ones: a
    string, or absent. *)
Definition textual (v : jsval) : bool :=
  match v with
  | JUndefined | JStr _ => true
  | _ => false
  end.

Definition textualFields (props : list (string * jsval)) : bool :=
  textual (field props "fileName") && textual (field props "address") &&
  textual (field props "stickerId").

(** [{x}] in the table: the string itself; an absent field prints as
    [undefined]. *)
Definition interpolated (v : jsval) : string :=
  match v with
  | JStr s => s
  | _ => "undefined"
  end.

(** [{fileName or 'Unknown'}] in the table. *)
Definition fileNameOrUnknown (v : jsval) : string :=
  match v with
  | JStr s => if String.eqb s "" then "Unknown" else s
  | _ => "Unknown"
  end.

(** The table of section 4.2, one constructor per line: the body it gives
    for a message object with the properties [props] and the tag [tag]. *)
Inductive table_4_2 (props : list (string * jsval)) : jsval -> jsval -> Prop :=
| row_text : table_4_2 props (JStr "text") (field props "text")
| row_image : table_4_2 props (JStr "image") (JStr "Image sent")
| row_video : table_4_2 props (JStr "video") (JStr "Video sent")
| row_audio : table_4_2 props (JStr "audio") (JStr "Audio sent")
| row_file :
    table_4_2 props (JStr "file")
      (JStr ("File sent: " ++ fileNameOrUnknown (field props "fileName")))
| row_location :
    table_4_2 props (JStr "location")
      (JStr ("Location: " ++ interpolated (field props "address")))
| row_sticker :
    table_4_2 props (JStr "sticker")
      (JStr ("Sticker: " ++ interpolated (field props "stickerId")))
| row_anything_else tag :
    ~ recognized tag ->
    table_4_2 props tag (JStr "Unsupported message type").

(** [displayName] is populated: neither the empty string nor [undefined]. *)
Definition populated (v : jsval) : Prop := v <> JStr "" /\ v <> JUndefined.

(** The state after one more log line. *)
Definition logged (s : State) (level msg : string) : State :=
  {| trace := trace s ++ [Log level msg]; sheet := sheet s |}.

(** The state after a stretch of effects that added the rows [rows]. *)
Definition advanced (s : State) (tr : list effect) (rows : list (list jsval))
  : State :=
  {| trace := trace s ++ tr; sheet := sheet s ++ rows |}.

(** [event.type !== "message"], for an event whose type can be read. *)
Definition notMessage (event : jsval) : bool :=
  match JS.getProp event "type" with
  | Ok ty => negb (JS.strictEqStr ty "message")
  | Throw _ => false
  end.

(** ** Concrete worlds and requests *)

Module Scenario.

Definition start : State := {| trace := []; sheet := [] |}.

(** The double quote, for writing JSON text. *)
Definition dq : string := String "034" "".

Definition profileNamed (name : string) : jsval :=
  JObj [("userId", JStr "U1"); ("displayName", JStr name)].

(** The signature is accepted, every lookup answers a profile with the
    given display name, every append is accepted. *)
Definition friendly (name : string) : World :=
  {| LINE_CHANNEL_SECRET := "channel-secret";
     validateSignature := fun _ _ _ => Ok true;
     dateParse := fun _ => None;
     getProfile := fun _ _ => Ok (profileNamed name);
     sheetsAppend := fun _ _ => Ok tt |}.

(** As [friendly], but the profile endpoint is down. *)
Definition lookupDown : World :=
  {| LINE_CHANNEL_SECRET := "channel-secret";
     validateSignature := fun _ _ _ => Ok true;
     dateParse := fun _ => None;
     getProfile := fun _ _ => Throw (ExternalError "404 Not Found");
     sheetsAppend := fun _ _ => Ok tt |}.

(** As [friendly], but the signature does not verify. *)
Definition rejecting : World :=
  {| LINE_CHANNEL_SECRET := "channel-secret";
     validateSignature := fun _ _ _ => Ok false;
     dateParse := fun _ => None;
     getProfile := fun _ _ => Ok (profileNamed "Alice");
     sheetsAppend := fun _ _ => Ok tt |}.

(** As [friendly], but the sheet refuses the second append request. *)
Definition secondAppendFails : World :=
  {| LINE_CHANNEL_SECRET := "channel-secret";
     validateSignature := fun _ _ _ => Ok true;
     dateParse := fun _ => None;
     getProfile := fun _ _ => Ok (profileNamed "Alice");
     sheetsAppend := fun tr _ =>
       if (appends tr =? 1)%nat then Throw (ExternalError "quota exceeded")
       else Ok tt |}.

(** A signature check that accepts exactly the text the sender signed:
    what an HMAC comparison does, collisions aside. *)
Definition exactVerifier (signed : string) : World :=
  {| LINE_CHANNEL_SECRET := "channel-secret";
     validateSignature := fun text _ _ =>
       Ok (match text with
           | Some t => String.eqb t signed
           | None => false
           end);
     dateParse := fun _ => None;
     getProfile := fun _ _ => Ok (profileNamed "Alice");
     sheetsAppend := fun _ _ => Ok tt |}.

(** A message event of a user, with the given message object. *)
Definition messageEvent (uid : string) (ts : Z) (msg : list (string * jsval))
  : jsval :=
  JObj [("type", JStr "message");
        ("timestamp", JNum ts);
        ("source", JObj [("type", JStr "user"); ("userId", JStr uid)]);
        ("message", JObj msg)].

(** A request carrying the given events, sent in compact form. *)
Definition batch (events : list jsval) : Request :=
  let parsed := JObj [("destination", JStr "Ubot"); ("events", JArr events)] in
  {| headers := [("content-type", "application/json");
                 ("x-line-signature", "c2lnbmF0dXJl")];
     rawBody := match JSON.stringify parsed with Some t => t | None => "" end;
     body := parsed |}.

Definition hi : jsval :=
  messageEvent "U1" 1700000000000
    [("id", JStr "M1"); ("type", JStr "text"); ("text", JStr "hi")].

Definition hiRow : list jsval :=
  [JStr "2023-11-14T22:13:20.000Z"; JStr "U1"; JStr "Alice"; JStr "M1";
   JStr "hi"; JStr "text"].

Definition sticker42 : jsval :=
  messageEvent "U1" 1700000001000
    [("id", JStr "M2"); ("type", JStr "sticker"); ("stickerId", JStr "42");
     ("packageId", JStr "1")].

Definition photo : jsval :=
  messageEvent "U2" 1700000002000 [("id", JStr "M3"); ("type", JStr "image")].

(** A message of a type the handler has no case for. *)
Definition contact : jsval :=
  messageEvent "U1" 1700000003000 [("id", JStr "M4"); ("type", JStr "contact")].

(** An event that is not a message. *)
Definition follow : jsval :=
  JObj [("type", JStr "follow"); ("timestamp", JNum 1700000004000);
        ("source", JObj [("type", JStr "user"); ("userId", JStr "U1")])].

(** A request whose body the sender wrote with a space after the colon. *)
Definition spacedText : string := "{" ++ dq ++ "events" ++ dq ++ ": []}".

Definition compactText : string := "{" ++ dq ++ "events" ++ dq ++ ":[]}".

Definition spaced : Request :=
  {| headers := [("content-type", "application/json");
                 ("x-line-signature", "c2lnbmF0dXJl")];
     rawBody := spacedText;
     body := JObj [("events", JArr [])] |}.

(** The check of the LINE SDK as far as a missing signature goes: it
    decodes the signature with [Buffer.from(signature, "base64")], which
    throws a TypeError when the header is absent and [signature] is
    [undefined]. A signature that is present is here accepted when it is
    the one the requests of this section carry. *)
Definition sdkCheck : World :=
  {| LINE_CHANNEL_SECRET := "channel-secret";
     validateSignature := fun _ _ signature =>
       match signature with
       | None =>
           Throw (TypeError "The first argument must be of type string")
       | Some sig => Ok (String.eqb sig "c2lnbmF0dXJl")
       end;
     dateParse := fun _ => None;
     getProfile := fun _ _ => Ok (profileNamed "Alice");
     sheetsAppend := fun _ _ => Ok tt |}.

(** The request of [batch], sent without the signature header. *)
Definition unsigned (events : list jsval) : Request :=
  {| headers := [("content-type", "application/json")];
     rawBody := rawBody (batch events);
     body := body (batch events) |}.

End Scenario.

(** ** Further vocabulary for the webhook *)

(** A world whose profile and sheet answers do not depend on what
    happened before. *)
Definition stateless (W : World) : Prop :=
  forall tr tr',
    (forall uid, getProfile W tr uid = getProfile W tr' uid) /\
    (forall row, sheetsAppend W tr row = sheetsAppend W tr' row).

(** The values a [for ... of] loop accepts. *)
Definition iterable (v : jsval) : bool :=
  match v with
  | JArr _ | JStr _ => true
  | _ => false
  end.

Definition isLog (e : effect) : bool :=
  match e with Log _ _ => true | _ => false end.

Definition logsOnly (l : list effect) : Prop := forallb isLog l = true.

(** The stretch of effects of an event handled to the end: its lookup,
    the error log when the lookup failed, then the append request of
    its row and the log of the append. *)
Definition completeRun (seg : list effect) (row : list jsval) : Prop :=
  exists uid,
    seg = [GetProfile uid; SheetsAppend row;
           Log "info" "Data appended to Google Sheet"] \/
    seg = [GetProfile uid; Log "error" "Error getting user profile";
           SheetsAppend row; Log "info" "Data appended to Google Sheet"].

(** The stretch of effects of a run that stops short: log lines only; or
    one lookup and log lines; or one lookup, log lines, one append
    request and log lines. *)
Inductive abortedRun : list effect -> Prop :=
| aborted_before_lookup logs :
    logsOnly logs -> abortedRun logs
| aborted_before_append uid logs :
    logsOnly logs -> abortedRun (GetProfile uid :: logs)
| aborted_at_append uid logs1 row logs2 :
    logsOnly logs1 -> logsOnly logs2 ->
    abortedRun (GetProfile uid :: logs1 ++ SheetsAppend row :: logs2).

(** A request whose [events] cannot be looped over: the body is [null] or
    [undefined], or [events] is missing or not iterable. *)
Definition malformedEnvelope (request : Request) : bool :=
  match JS.getProp (body request) "events" with
  | Ok v => negb (iterable v)
  | Throw _ => true
  end.

Definition nullish (v : jsval) : bool :=
  match v with
  | JUndefined | JNull => true
  | _ => false
  end.

(** The events the loop body does not skip. *)
Definition kept (event : jsval) : bool := negb (notMessage event).

(** ** The callable functions, the triggers and the scheduled job

    [getUserData], [createUser], [onUserCreated], [onUserUpdated],
    [dailyCleanup], [sendNotification] and [setupGoogleSheetHeaders].
    They talk to the document store, the push service and the Sheets
    API; as for the webhook, each call is recorded in a trace and its
    answer is given by the services, which may answer according to the
    calls made before. *)

Module Cloud.

(** A field of a stored document, as far as this code looks at it: a JSON
    value, or some other object (a timestamp, a reference) of which only
    the text of its string conversion matters. *)
Inductive field : Type :=
| Json (v : jsval)
| Opaque (text : string).

(** [snapshot.data()] of an existing document. *)
Definition document : Type := list (string * field).

(** The values this code puts into the objects it hands to a service or
    returns to its caller. *)
Inductive wval : Type :=
| WJson (v : jsval)
| WField (f : field)
| WDoc (d : option document)
| WServerTimestamp
| WDate (t : option Z)
| WMap (fields : list (string * wval)).

Definition object : Type := list (string * wval).

(** What these functions throw: [new Error(msg)], a JavaScript exception,
    or whatever failure a service reports. *)
Inductive failure : Type :=
| Error (msg : string)
| JsError (e : exn).

Inductive outcome (A : Type) : Type :=
| Done (a : A)
| Fail (f : failure).
Arguments Done {A} a.
Arguments Fail {A} f.

Inductive call : Type :=
| DocGet (collection : string) (id : jsval)
| DocSet (collection id : string) (data : object)
| CollectionAdd (collection : string) (data : object)
| QueryGet (collection fieldPath op : string) (value : wval)
| BatchCommit (deletes : list (string * string))
| MessagingSend (message : object)
| ValuesUpdate (range : string) (values : list (list jsval))
| Logged (level msg : string).

Record Services : Type := {
  (** [new Date()]: the clock, in milliseconds since the epoch *)
  now : list call -> Z;
  (** the offset of local time at a UTC instant, and at a local instant *)
  offsetAtUTC : Z -> Z;
  offsetAtLocal : Z -> Z;
  (** the identifier [collection.doc()] draws for a new document *)
  newId : list call -> string -> string;
  (** [collection.doc(id).get()]: the data, [None] when [!exists] *)
  docGet : list call -> string -> jsval -> outcome (option document);
  (** [ref.set(data)] *)
  docSet : list call -> string -> string -> object -> outcome unit;
  (** [collection.add(data)] *)
  collectionAdd : list call -> string -> object -> outcome unit;
  (** [query.get()]: the matching documents, by identifier *)
  queryGet :
    list call -> string -> string -> string -> wval ->
    outcome (list (string * document));
  (** [batch.commit()] of a batch of deletes *)
  batchCommit : list call -> list (string * string) -> outcome unit;
  (** [admin.messaging().send(message)]: the message identifier *)
  messagingSend : list call -> object -> outcome string;
  (** [sheets.spreadsheets.values.update] *)
  valuesUpdate : list call -> string -> list (list jsval) -> outcome unit
}.

(** A computation: from the calls made so far to an outcome and the calls
    made by then. *)
Definition C (A : Type) : Type := list call -> outcome A * list call.

Definition pure {A} (a : A) : C A := fun tr => (Done a, tr).

Definition failWith {A} (f : failure) : C A := fun tr => (Fail f, tr).

Definition andThen {A B} (m : C A) (k : A -> C B) : C B :=
  fun tr =>
    match m tr with
    | (Done a, tr') => k a tr'
    | (Fail f, tr') => (Fail f, tr')
    end.

(** [try { m } catch (error) { h error }] *)
Definition attempt {A} (m : C A) (h : failure -> C A) : C A :=
  fun tr =>
    match m tr with
    | (Done a, tr') => (Done a, tr')
    | (Fail f, tr') => h f tr'
    end.

(** A call to a service: recorded, and answered by the service. *)
Definition perform {A} (c : call) (answer : list call -> outcome A) : C A :=
  fun tr => (answer tr, (tr ++ [c])%list).

(** Something read off the services without a call. *)
Definition ask {A} (read : list call -> A) : C A := fun tr => (Done (read tr), tr).

Definition liftJs {A} (r : result A) : C A :=
  match r with
  | Ok a => pure a
  | Throw e => failWith (JsError e)
  end.

Definition logInfo (msg : string) : C unit :=
  fun tr => (Done tt, (tr ++ [Logged "info" msg])%list).

Definition logError (msg : string) : C unit :=
  fun tr => (Done tt, (tr ++ [Logged "error" msg])%list).

Declare Scope cloud_scope.
Delimit Scope cloud_scope with cloud.
Notation "x <- m ;; k" := (andThen m (fun x => k))
  (at level 61, m at next level, right associativity) : cloud_scope.
Notation "m ;; k" := (andThen m (fun _ => k))
  (at level 61, right associativity) : cloud_scope.
Local Open Scope cloud_scope.

(** [d?.k] on the data of a snapshot that may be missing. *)
Definition fieldOf (d : option document) (k : string) : field :=
  match d with
  | None => Json JUndefined
  | Some fields =>
      (fix find (l : document) : field :=
         match l with
         | [] => Json JUndefined
         | (k', f) :: rest => if String.eqb k k' then f else find rest
         end) fields
  end.

Definition fieldTruthy (f : field) : bool :=
  match f with
  | Json v => JS.truthy v
  | Opaque _ => true
  end.


(** *** Calendar arithmetic of [setDate] and [getDate] *)

(** The day number of a date of the proleptic Gregorian calendar. *)
Definition daysFromCivil (y m d : Z) : Z :=
  let y' := if m <=? 2 then y - 1 else y in
  let era := y' / 400 in
  let yoe := y' - era * 400 in
  let mp := if 2 <? m then m - 3 else m + 9 in
  let doy := (153 * mp + 2) / 5 + d - 1 in
  let doe := yoe * 365 + yoe / 4 - yoe / 100 + doy in
  era * 146097 + doe - 719468.

(** [getDate()]: the day of the month of a local time value. *)
Definition getDate (tlocal : Z) : Z :=
  let '(_, _, d) := Date.civil (tlocal / Date.msPerDay) in d.

(** MakeDate(MakeDay(year, month, [dt]), TimeWithinDay) at a local time
    value: the same year, month and time of day, the day of the month
    replaced by [dt], which may lie outside the month. *)
Definition withDate (tlocal dt : Z) : Z :=
  let '(y, m, _) := Date.civil (tlocal / Date.msPerDay) in
  (daysFromCivil y m 1 + dt - 1) * Date.msPerDay + tlocal mod Date.msPerDay.

Section Functions.

Variable S : Services.

(** Lines 126-127: [new Date()], then [setDate(getDate() - 30)] in local
    time. [None] is an invalid date. *)
Definition cutoffDate (tr : list call) : option Z :=
  match Date.timeClip (now S tr) with
  | None => None
  | Some t =>
      let tlocal := t + offsetAtUTC S t in
      let moved := withDate tlocal (getDate tlocal - 30) in
      Date.timeClip (moved - offsetAtLocal S moved)
  end.

(** [getUserData], lines 25-52, applied to [request.data]. *)
Definition getUserData (data : jsval) : C object :=
  userId <- liftJs (JS.getProp data "userId") ;;
  if negb (JS.truthy userId) then failWith (Error "userId is required")
  else
    attempt
      (userDoc <- perform (DocGet "users" userId)
                    (fun tr => docGet S tr "users" userId) ;;
       match userDoc with
       | None => failWith (Error "User not found")
       | Some d =>
           logInfo "User data retrieved" ;;
           pure [("success", WJson (JBool true)); ("data", WDoc (Some d))]
       end)
      (fun error => logError "Error getting user data" ;; failWith error).

(** [createUser], lines 54-82. *)
Definition createUser (data : jsval) : C object :=
  email <- liftJs (JS.getProp data "email") ;;
  name <- liftJs (JS.getProp data "name") ;;
  if negb (JS.truthy email) || negb (JS.truthy name)
  then failWith (Error "Email and name are required")
  else
    attempt
      (id <- ask (fun tr => newId S tr "users") ;;
       let userData :=
         [("email", WJson email); ("name", WJson name);
          ("createdAt", WServerTimestamp); ("updatedAt", WServerTimestamp)] in
       perform (DocSet "users" id userData)
         (fun tr => docSet S tr "users" id userData) ;;
       logInfo "User created" ;;
       pure [("success", WJson (JBool true)); ("userId", WJson (JStr id));
             ("message", WJson (JStr "User created successfully"))])
      (fun error => logError "Error creating user" ;; failWith error).


(** [onUserUpdated], lines 101-120, applied to [event.params.userId] and
    to the data of the two snapshots of [event.data], when there is
    one. *)
Definition onUserUpdated (userId : string)
  (change : option (document * document)) : C unit :=
  let beforeData := option_map fst change in
  let afterData := option_map snd change in
  logInfo "User updated trigger" ;;
  let entry :=
    [("type", WJson (JStr "user_updated")); ("userId", WJson (JStr userId));
     ("changes", WMap [("before", WDoc beforeData); ("after", WDoc afterData)]);
     ("timestamp", WServerTimestamp)] in
  perform (CollectionAdd "audit_logs" entry)
    (fun tr => collectionAdd S tr "audit_logs" entry).

(** The references [doc.ref] of the documents of a snapshot of the audit
    log. *)
Definition refsOf (docs : list (string * document)) : list (string * string) :=
  map (fun d => ("audit_logs", fst d)) docs.

(** [dailyCleanup], lines 122-148. *)
Definition dailyCleanup : C unit :=
  logInfo "Daily cleanup job started" ;;
  attempt
    (cutoff <- ask cutoffDate ;;
     docs <- perform (QueryGet "audit_logs" "timestamp" "<" (WDate cutoff))
               (fun tr => queryGet S tr "audit_logs" "timestamp" "<"
                            (WDate cutoff)) ;;
     perform (BatchCommit (refsOf docs))
       (fun tr => batchCommit S tr (refsOf docs)) ;;
     logInfo "Daily cleanup completed")
    (fun error => logError "Daily cleanup failed" ;; failWith error).

(** [sendNotification], lines 150-199. *)
Definition sendNotification (data : jsval) : C object :=
  userId <- liftJs (JS.getProp data "userId") ;;
  title <- liftJs (JS.getProp data "title") ;;
  body <- liftJs (JS.getProp data "body") ;;
  if negb (JS.truthy userId) || negb (JS.truthy title) || negb (JS.truthy body)
  then failWith (Error "userId, title, and body are required")
  else
    attempt
      (userDoc <- perform (DocGet "users" userId)
                    (fun tr => docGet S tr "users" userId) ;;
       match userDoc with
       | None => failWith (Error "User not found")
       | Some userData =>
           let fcmToken := fieldOf (Some userData) "fcmToken" in
           if negb (fieldTruthy fcmToken)
           then failWith (Error "User has no FCM token")
           else
             let message :=
               [("notification",
                 WMap [("title", WJson title); ("body", WJson body)]);
                ("token", WField fcmToken)] in
             response <- perform (MessagingSend message)
                           (fun tr => messagingSend S tr message) ;;
             let record :=
               [("userId", WJson userId); ("title", WJson title);
                ("body", WJson body); ("messageId", WJson (JStr response));
                ("sentAt", WServerTimestamp)] in
             perform (CollectionAdd "notifications" record)
               (fun tr => collectionAdd S tr "notifications" record) ;;
             logInfo "Notification sent" ;;
             pure [("success", WJson (JBool true));
                   ("messageId", WJson (JStr response))]
       end)
      (fun error => logError "Error sending notification" ;; failWith error).

(** The header row of lines 364-373. *)
Definition sheetHeaders : list (list jsval) :=
  [[JStr "Timestamp"; JStr "User ID"; JStr "Display Name"; JStr "Message ID";
    JStr "Message"; JStr "Message Type"]].

(** [setupGoogleSheetHeaders], lines 354-390. Building the credentials and
    the client makes no request and is left out. *)
Definition setupGoogleSheetHeaders : C object :=
  attempt
    (perform (ValuesUpdate "Sheet1!A1:F1" sheetHeaders)
       (fun tr => valuesUpdate S tr "Sheet1!A1:F1" sheetHeaders) ;;
     logInfo "Google Sheet headers set up successfully" ;;
     pure [("success", WJson (JBool true));
           ("message", WJson (JStr "Headers set up successfully"))])
    (fun error =>
       logError "Error setting up Google Sheet headers" ;; failWith error).

End Functions.

(** The calls that write to the document store or to the sheet, the
    calls that read from the store, and the pushes. *)
Definition isWrite (c : call) : bool :=
  match c with
  | DocSet _ _ _ | CollectionAdd _ _ | BatchCommit _ | ValuesUpdate _ _ => true
  | _ => false
  end.

Definition isRead (c : call) : bool :=
  match c with
  | DocGet _ _ | QueryGet _ _ _ _ => true
  | _ => false
  end.

Definition isSend (c : call) : bool :=
  match c with
  | MessagingSend _ => true
  | _ => false
  end.

(** Services that answer every call, for concrete runs: the clock shows
    [t], local time is UTC, the user [U1] exists with the given data, the
    audit log query finds the given documents. *)
Definition steady (t : Z) (user : document) (old : list (string * document))
  : Services :=
  {| now := fun _ => t;
     offsetAtUTC := fun _ => 0;
     offsetAtLocal := fun _ => 0;
     newId := fun _ _ => "auto-id-1";
     docGet := fun _ _ id =>
       Done (match id with
             | JStr "U1" => Some user
             | _ => None
             end);
     docSet := fun _ _ _ _ => Done tt;
     collectionAdd := fun _ _ _ => Done tt;
     queryGet := fun _ _ _ _ _ => Done old;
     batchCommit := fun _ _ => Done tt;
     messagingSend := fun _ _ => Done "projects/p/messages/1";
     valuesUpdate := fun _ _ _ => Done tt |}.

(** As [steady], but every write to the store fails. *)
Definition storeReadOnly (t : Z) (user : document)
  (old : list (string * document)) : Services :=
  {| now := fun _ => t;
     offsetAtUTC := fun _ => 0;
     offsetAtLocal := fun _ => 0;
     newId := fun _ _ => "auto-id-1";
     docGet := fun _ _ id =>
       Done (match id with
             | JStr "U1" => Some user
             | _ => None
             end);
     docSet := fun _ _ _ _ => Fail (Error "PERMISSION_DENIED");
     collectionAdd := fun _ _ _ => Fail (Error "PERMISSION_DENIED");
     queryGet := fun _ _ _ _ _ => Done old;
     batchCommit := fun _ _ => Fail (Error "PERMISSION_DENIED");
     messagingSend := fun _ _ => Done "projects/p/messages/1";
     valuesUpdate := fun _ _ _ => Fail (Error "PERMISSION_DENIED") |}.

Definition alice : document :=
  [("email", Json (JStr "alice@example.com")); ("name", Json (JStr "Alice"));
   ("createdAt", Opaque "[object Object]"); ("fcmToken", Json (JStr "tok-1"))].

End Cloud.

(** ** The JavaScript operations on sample values *)

Example toString_array :
  JS.toString (JArr [JNum 1; JNull; JArr [JStr "a"; JUndefined; JBool true];
                     JObj [("k", JNum 0)]])
  = Ok "1,,a,,true,[object Object]".
Proof. reflexivity. Qed.

Example toString_own_toString :
  JS.toString (JObj [("toString", JNum 1)])
  = Throw (TypeError "Cannot convert object to primitive value").
Proof. reflexivity. Qed.

Example or_else_samples :
  map (fun v => JS.or_else v (JStr "Unknown"))
    [JUndefined; JStr ""; JStr "a.pdf"; JNum 0; JNull]
  = [JStr "Unknown"; JStr "Unknown"; JStr "a.pdf"; JStr "Unknown";
     JStr "Unknown"].
Proof. reflexivity. Qed.

Example stringify_key_order :
  JSON.stringify
    (JObj [("b", JNum 1); ("10", JNum 2); ("2", JUndefined); ("1", JNull);
           ("a", JArr [JUndefined; JNum (-3)])])
  = Some ("{" ++ Scenario.dq ++ "1" ++ Scenario.dq ++ ":null," ++
          Scenario.dq ++ "10" ++ Scenario.dq ++ ":2," ++
          Scenario.dq ++ "b" ++ Scenario.dq ++ ":1," ++
          Scenario.dq ++ "a" ++ Scenario.dq ++ ":[null,-3]}").
Proof. reflexivity. Qed.

Example parse_samples :
  map JSON.parse
    ["[1, 2 ,[true,null] ]"; " -0 "; "01"; "[1,]"; "1.5"; "nul"; "{}";
     "9007199254740993"]
  = [Some (JArr [JNum 1; JNum 2; JArr [JBool true; JNull]]); Some (JNum 0);
     None; None; None; None; Some (JObj []); None].
Proof. reflexivity. Qed.

Example parse_stringify_batch :
  JSON.parse
    (rawBody (Scenario.batch [Scenario.hi; Scenario.follow; Scenario.contact]))
  = Some (body (Scenario.batch [Scenario.hi; Scenario.follow; Scenario.contact])).
Proof. reflexivity. Qed.

Example isoFormat_samples :
  map Date.isoFormat
    [0; -1; 951782400000; 1709164800000; 253402300799999; 253402300800000;
     -62167219200000; -62167219200001; 8640000000000000; -8640000000000000]
  = ["1970-01-01T00:00:00.000Z"; "1969-12-31T23:59:59.999Z";
     "2000-02-29T00:00:00.000Z"; "2024-02-29T00:00:00.000Z";
     "9999-12-31T23:59:59.999Z"; "+010000-01-01T00:00:00.000Z";
     "0000-01-01T00:00:00.000Z"; "-000001-12-31T23:59:59.999Z";
     "+275760-09-13T00:00:00.000Z"; "-271821-04-20T00:00:00.000Z"].
Proof. reflexivity. Qed.

Example toISOString_invalid :
  map (Date.toISOString (fun _ => None))
    [JUndefined; JNum 8640000000000001; JStr "yesterday"; JNull]
  = [Throw (RangeError "Invalid time value");
     Throw (RangeError "Invalid time value");
     Throw (RangeError "Invalid time value");
     Ok "1970-01-01T00:00:00.000Z"].
Proof. reflexivity. Qed.

(** ** Basic facts about the monad and the two helpers *)

Section Facts.

Variable W : World.

Lemma forOf_app {A} (f : A -> M unit) (l1 l2 : list A) (s : State) :
  forOf f (l1 ++ l2) s =
  match forOf f l1 s with
  | (Ok _, s1) => forOf f l2 s1
  | (Throw e, s1) => (Throw e, s1)
  end.
Proof.
  revert s. induction l1 as [|x l1 IH]; intros s; simpl.
  - reflexivity.
  - unfold bind. destruct (f x s) as [[[]|e] s1]; [apply IH | reflexivity].
Qed.

(** One run of [getUserDisplayName]: the lookup is recorded; a failure of
    the call, or of reading [displayName] off its answer, is logged and
    replaced by the sentinel. *)
Lemma getUserDisplayName_run (uid : jsval) (s : State) :
  getUserDisplayName W uid s =
  match rbind (getProfile W (trace s) uid)
          (fun profile => JS.getProp profile "displayName") with
  | Ok name =>
      (Ok name, {| trace := trace s ++ [GetProfile uid]; sheet := sheet s |})
  | Throw _ =>
      (Ok (JStr "Unknown User"),
       {| trace := (trace s ++ [GetProfile uid]) ++
                   [Log "error" "Error getting user profile"];
          sheet := sheet s |})
  end.
Proof.
  unfold getUserDisplayName, tryCatch, bind, callGetProfile, lift, log, emit, ret.
  destruct (getProfile W (trace s) uid) as [profile|e]; simpl; [|reflexivity].
  destruct (JS.getProp profile "displayName"); reflexivity.
Qed.

(** One run of [appendToGoogleSheet]. *)
Lemma appendToGoogleSheet_run (data : LineMessage) (s : State) :
  appendToGoogleSheet W data s =
  match Date.toISOString (dateParse W) (timestamp data) with
  | Throw e =>
      (Throw e,
       {| trace := trace s ++ [Log "error" "Error appending to Google Sheet"];
          sheet := sheet s |})
  | Ok iso =>
      match sheetsAppend W (trace s) (rowOf iso data) with
      | Ok _ =>
          (Ok tt,
           {| trace := (trace s ++ [SheetsAppend (rowOf iso data)]) ++
                       [Log "info" "Data appended to Google Sheet"];
              sheet := sheet s ++ [rowOf iso data] |})
      | Throw e =>
          (Throw e,
           {| trace := (trace s ++ [SheetsAppend (rowOf iso data)]) ++
                       [Log "error" "Error appending to Google Sheet"];
              sheet := sheet s |})
      end
  end.
Proof.
  unfold appendToGoogleSheet, tryCatch, bind, callSheetsAppend, lift, log,
    emit, throw.
  destruct (Date.toISOString (dateParse W) (timestamp data)) as [iso|e];
    simpl; [|reflexivity].
  destruct (sheetsAppend W (trace s) (rowOf iso data)) as [[]|e]; reflexivity.
Qed.

(** The loop body is [readEvent] followed by the two remote calls. *)
Lemma handleEvent_readEvent (event : jsval) (s : State) :
  handleEvent W event s =
  match readEvent event with
  | Throw e => (Throw e, s)
  | Ok None => (Ok tt, s)
  | Ok (Some p) =>
      bind (getUserDisplayName W (ef_userId p))
        (fun name => appendToGoogleSheet W (recordOf p name)) s
  end.
Proof.
  unfold handleEvent, readEvent, bind, lift, ret.
  destruct (JS.getProp event "type") as [ty|e]; simpl; [|reflexivity].
  destruct (JS.strictEqStr ty "message"); [|reflexivity].
  destruct (JS.getProp event "source") as [source|e]; simpl; [|reflexivity].
  destruct (JS.getProp source "userId") as [uid|e]; simpl; [|reflexivity].
  destruct (JS.getProp event "message") as [m|e]; simpl; [|reflexivity].
  destruct (JS.getProp m "id") as [mid|e]; simpl; [|reflexivity].
  destruct (JS.getProp event "timestamp") as [ts|e]; simpl; [|reflexivity].
  destruct (normalize event) as [mt|e]; simpl; reflexivity.
Qed.

Lemma readEvent_isMessage (event : jsval) (p : EventFields) :
  readEvent event = Ok (Some p) -> isMessage event = true.
Proof.
  unfold readEvent, isMessage.
  destruct (JS.getProp event "type") as [ty|e]; simpl; [|discriminate].
  destruct (JS.strictEqStr ty "message"); [reflexivity|discriminate].
Qed.

Lemma readEvent_skip (event : jsval) :
  readEvent event = Ok None -> isMessage event = false.
Proof.
  unfold readEvent, isMessage.
  destruct (JS.getProp event "type") as [ty|e]; simpl; [|discriminate].
  destruct (JS.strictEqStr ty "message"); [|reflexivity].
  destruct (JS.getProp event "source") as [source|e]; simpl; [|discriminate].
  destruct (JS.getProp source "userId") as [uid|e]; simpl; [|discriminate].
  destruct (JS.getProp event "message") as [m|e]; simpl; [|discriminate].
  destruct (JS.getProp m "id") as [mid|e]; simpl; [|discriminate].
  destruct (JS.getProp event "timestamp") as [ts|e]; simpl; [|discriminate].
  destruct (normalize event) as [mt|e]; simpl; discriminate.
Qed.

(** The three ways the loop body can end: the event is skipped and
    nothing happens; the event is handled to the end and one row is
    added; or it throws and no row is added. *)
Lemma handleEvent_cases (event : jsval) (s : State) :
  (isMessage event = false /\ handleEvent W event s = (Ok tt, s)) \/
  (isMessage event = true /\
   exists seg row,
     eventRun W event seg row /\
     handleEvent W event s =
     (Ok tt, {| trace := trace s ++ seg; sheet := sheet s ++ [row] |})) \/
  (exists e tail,
     handleEvent W event s =
     (Throw e, {| trace := trace s ++ tail; sheet := sheet s |})).
Proof.
  rewrite handleEvent_readEvent.
  destruct (readEvent event) as [[p|]|e] eqn:Hread.
  - unfold bind. rewrite getUserDisplayName_run.
    destruct (rbind (getProfile W (trace s) (ef_userId p))
                (fun profile => JS.getProp profile "displayName"))
      as [name|e'];
      rewrite appendToGoogleSheet_run; cbn [timestamp recordOf trace sheet].
    + destruct (Date.toISOString (dateParse W) (ef_timestamp p)) as [iso|e] eqn:Hiso.
      * destruct (sheetsAppend W _ _) as [[]|e].
        -- right; left. split; [eapply readEvent_isMessage; eassumption|].
           eexists _, _. split.
           ++ exists p, iso, name. repeat split; try eassumption.
              left; reflexivity.
           ++ rewrite <- !app_assoc. reflexivity.
        -- right; right. eexists _, _. rewrite <- !app_assoc. reflexivity.
      * right; right. eexists _, _. rewrite <- !app_assoc. reflexivity.
    + destruct (Date.toISOString (dateParse W) (ef_timestamp p)) as [iso|e] eqn:Hiso.
      * destruct (sheetsAppend W _ _) as [[]|e].
        -- right; left. split; [eapply readEvent_isMessage; eassumption|].
           eexists _, _. split.
           ++ exists p, iso, (JStr "Unknown User"). repeat split; try eassumption.
              right; reflexivity.
           ++ rewrite <- !app_assoc. reflexivity.
        -- right; right. eexists _, _. rewrite <- !app_assoc. reflexivity.
      * right; right. eexists _, _. rewrite <- !app_assoc. reflexivity.
  - left. split; [apply readEvent_skip; assumption | reflexivity].
  - right; right. exists e, []. rewrite app_nil_r. destruct s; reflexivity.
Qed.

(** The whole loop: the message events handled to the end are a prefix
    [done] of the message events of the batch; each contributed its own
    stretch of effects and its row, in the order of the batch. *)
Lemma forOf_runs (l : list jsval) (s : State) :
  exists (done rest : list jsval) runs tail r,
    forOf (handleEvent W) l s =
      (r, advanced s (List.concat (map fst runs) ++ tail) (map snd runs)) /\
    filter isMessage l = (done ++ rest)%list /\
    Forall2 (fun event run => eventRun W event (fst run) (snd run)) done runs /\
    (r = Ok tt -> rest = [] /\ tail = []).
Proof.
  revert s. induction l as [|event l IH]; intros s.
  - exists [], [], [], [], (Ok tt). cbn. unfold ret, advanced.
    rewrite !app_nil_r. destruct s; repeat split; constructor.
  - cbn [forOf filter]. unfold bind.
    destruct (handleEvent_cases event s)
      as [[Hskip Hrun] | [[Hmsg (seg & row & Hev & Hrun)] | (e & tail & Hrun)]];
      rewrite Hrun.
    + rewrite Hskip. apply IH.
    + rewrite Hmsg.
      destruct (IH {| trace := trace s ++ seg; sheet := sheet s ++ [row] |})
        as (done & rest & runs & tail & r & Hfor & Hfilter & Hall & Hok).
      exists (event :: done), rest, ((seg, row) :: runs), tail, r.
      rewrite Hfor, Hfilter. unfold advanced. cbn.
      rewrite <- !app_assoc. repeat split; try assumption; try (apply Hok; assumption).
      constructor; assumption.
    + exists [], (filter isMessage (event :: l)), [], tail, (Throw e).
      unfold advanced. cbn. rewrite app_nil_r.
      repeat split; try constructor; discriminate.
Qed.

(** The handler, one decision at a time. It never throws: every path
    ends in a response. *)
Lemma lineWebhook_run (request : Request) (s : State) :
  lineWebhook W request s =
  match validateSignature W (verifierBody request) (LINE_CHANNEL_SECRET W)
          (header "x-line-signature" (headers request)) with
  | Throw _ =>
      (Ok InternalServerError,
       logged s "error" "Error processing LINE webhook")
  | Ok false => (Ok Unauthorized, logged s "error" "Invalid LINE signature")
  | Ok true =>
      match eventsOf request with
      | Throw _ =>
          (Ok InternalServerError,
           logged s "error" "Error processing LINE webhook")
      | Ok elems =>
          match forOf (handleEvent W) elems s with
          | (Ok _, s') => (Ok OK, s')
          | (Throw _, s') =>
              (Ok InternalServerError,
               logged s' "error" "Error processing LINE webhook")
          end
      end
  end.
Proof.
  unfold lineWebhook, eventsOf, tryCatch, bind, lift, log, emit, ret, logged.
  destruct (validateSignature W _ _ _) as [[|]|e]; simpl; try reflexivity.
  destruct (JS.getProp (body request) "events") as [events|e]; simpl;
    [|reflexivity].
  destruct (iterate events) as [elems|e]; simpl; [|reflexivity].
  destruct (forOf (handleEvent W) elems s) as [[[]|e] s']; reflexivity.
Qed.

End Facts.

(** ** The message normalizer *)

Lemma strictEqStr_true (v : jsval) (s : string) :
  JS.strictEqStr v s = true -> v = JStr s.
Proof.
  destruct v; simpl; try discriminate.
  intros H. apply String.eqb_eq in H. congruence.
Qed.

Lemma strictEqStr_refl (s : string) : JS.strictEqStr (JStr s) s = true.
Proof. simpl. apply String.eqb_refl. Qed.

Lemma getProp_obj (props : list (string * jsval)) (k : string) :
  JS.getProp (JObj props) k = Ok (field props k).
Proof. unfold JS.getProp, field. destruct (JS.lookup k props); reflexivity. Qed.

(** A tag that fails all seven comparisons of the [switch] is not one of
    the recognized tags. *)
Lemma unrecognized_tag (tag : jsval) :
  JS.strictEqStr tag "text" = false ->
  JS.strictEqStr tag "image" = false ->
  JS.strictEqStr tag "video" = false ->
  JS.strictEqStr tag "audio" = false ->
  JS.strictEqStr tag "file" = false ->
  JS.strictEqStr tag "location" = false ->
  JS.strictEqStr tag "sticker" = false ->
  ~ recognized tag.
Proof.
  intros H1 H2 H3 H4 H5 H6 H7 (t & Hin & ->).
  simpl in Hin.
  repeat (destruct Hin as [<- | Hin]; [simpl in *; discriminate|]).
  exact Hin.
Qed.

Lemma template_textual (prefix : string) (v : jsval) :
  textual v = true ->
  rbind (JS.toString v) (fun s => Ok (JStr (prefix ++ s))) =
  Ok (JStr (prefix ++ interpolated v)).
Proof. destruct v; simpl; try discriminate; reflexivity. Qed.

Lemma template_fileName (v : jsval) :
  textual v = true ->
  rbind (JS.toString (JS.or_else v (JStr "Unknown")))
    (fun s => Ok (JStr ("File sent: " ++ s))) =
  Ok (JStr ("File sent: " ++ fileNameOrUnknown v)).
Proof.
  destruct v; simpl; try discriminate; try reflexivity.
  intros _. unfold JS.or_else. simpl.
  destruct (String.eqb s ""); reflexivity.
Qed.

(** C4. For every transport event (an event whose [message] is an object
    with string-or-absent [fileName], [address] and [stickerId], as the
    transport declares them), the normalizer returns, without throwing,
    the body that the table of section 4.2 gives for the event's tag:
    the literal text, the fixed placeholders, the three interpolated
    strings, and "Unsupported message type" for every tag that is not one
    of the seven. *)
Theorem normalize_follows_table (event : jsval) (props : list (string * jsval)) :
  JS.getProp event "message" = Ok (JObj props) ->
  textualFields props = true ->
  exists body,
    normalize event = Ok (body, field props "type") /\
    table_4_2 props (field props "type") body.
Proof.
  intros Hm Hfields. unfold normalize. rewrite Hm. cbn [rbind].
  rewrite !getProp_obj. cbn [rbind].
  unfold textualFields in Hfields.
  apply andb_prop in Hfields as [Hfields Hsticker].
  apply andb_prop in Hfields as [Hfile Haddress].
  set (tag := field props "type").
  destruct (JS.strictEqStr tag "text") eqn:Htext.
  { apply strictEqStr_true in Htext. rewrite Htext.
    eexists. split; [reflexivity | constructor]. }
  destruct (JS.strictEqStr tag "image") eqn:Himage.
  { apply strictEqStr_true in Himage. rewrite Himage.
    eexists. split; [reflexivity | constructor]. }
  destruct (JS.strictEqStr tag "video") eqn:Hvideo.
  { apply strictEqStr_true in Hvideo. rewrite Hvideo.
    eexists. split; [reflexivity | constructor]. }
  destruct (JS.strictEqStr tag "audio") eqn:Haudio.
  { apply strictEqStr_true in Haudio. rewrite Haudio.
    eexists. split; [reflexivity | constructor]. }
  destruct (JS.strictEqStr tag "file") eqn:Hfiletag.
  { apply strictEqStr_true in Hfiletag. rewrite Hfiletag.
    rewrite (template_fileName _ Hfile).
    eexists. split; [reflexivity | constructor]. }
  destruct (JS.strictEqStr tag "location") eqn:Hloc.
  { apply strictEqStr_true in Hloc. rewrite Hloc.
    rewrite (template_textual _ _ Haddress).
    eexists. split; [reflexivity | constructor]. }
  destruct (JS.strictEqStr tag "sticker") eqn:Hst.
  { apply strictEqStr_true in Hst. rewrite Hst.
    rewrite (template_textual _ _ Hsticker).
    eexists. split; [reflexivity | constructor]. }
  eexists. split; [reflexivity|].
  constructor. apply unrecognized_tag; assumption.
Qed.

(** The sticker of scenario 2 normalizes to "Sticker: 42". *)
Lemma normalize_follows_table_witness :
  let props := [("id", JStr "M2"); ("type", JStr "sticker");
                ("stickerId", JStr "42"); ("packageId", JStr "1")] in
  JS.getProp Scenario.sticker42 "message" = Ok (JObj props) /\
  textualFields props = true /\
  exists body,
    normalize Scenario.sticker42 = Ok (body, JStr "sticker") /\
    table_4_2 props (JStr "sticker") body.
Proof.
  intros props. split; [reflexivity|]. split; [reflexivity|].
  apply (normalize_follows_table Scenario.sticker42 props); reflexivity.
Defined.

Example normalize_sticker42 :
  normalize Scenario.sticker42 = Ok (JStr "Sticker: 42", JStr "sticker").
Proof. reflexivity. Qed.

(** ** The rows of a whole request *)

Lemma rbind_pair_inv {A B} (r : result A) (b b' : B) (a : A) :
  rbind r (fun x => Ok (x, b)) = Ok (a, b') -> r = Ok a /\ b = b'.
Proof. destruct r; simpl; intros H; inversion H; auto. Qed.

(** The message type the normalizer returns is the tag it read, and an
    unrecognized tag gets the fixed body. *)
Lemma normalize_kind (event msg ty : jsval) :
  normalize event = Ok (msg, ty) ->
  exists m,
    JS.getProp event "message" = Ok m /\
    JS.getProp m "type" = Ok ty /\
    (~ recognized ty -> msg = JStr "Unsupported message type").
Proof.
  unfold normalize.
  destruct (JS.getProp event "message") as [m|e]; cbn [rbind]; [|discriminate].
  destruct (JS.getProp m "type") as [tag|e] eqn:Htag; cbn [rbind];
    [|discriminate].
  intros H. apply rbind_pair_inv in H as [H <-].
  exists m. split; [reflexivity | split; [assumption|]].
  intros Hnot.
  destruct (JS.strictEqStr tag "text") eqn:H1;
    [apply strictEqStr_true in H1; destruct Hnot; exists "text"; simpl; tauto|].
  destruct (JS.strictEqStr tag "image") eqn:H2;
    [apply strictEqStr_true in H2; destruct Hnot; exists "image"; simpl; tauto|].
  destruct (JS.strictEqStr tag "video") eqn:H3;
    [apply strictEqStr_true in H3; destruct Hnot; exists "video"; simpl; tauto|].
  destruct (JS.strictEqStr tag "audio") eqn:H4;
    [apply strictEqStr_true in H4; destruct Hnot; exists "audio"; simpl; tauto|].
  destruct (JS.strictEqStr tag "file") eqn:H5;
    [apply strictEqStr_true in H5; destruct Hnot; exists "file"; simpl; tauto|].
  destruct (JS.strictEqStr tag "location") eqn:H6;
    [apply strictEqStr_true in H6; destruct Hnot; exists "location"; simpl; tauto|].
  destruct (JS.strictEqStr tag "sticker") eqn:H7;
    [apply strictEqStr_true in H7; destruct Hnot; exists "sticker"; simpl; tauto|].
  congruence.
Qed.

Lemma readEvent_normalize (event : jsval) (p : EventFields) :
  readEvent event = Ok (Some p) ->
  normalize event = Ok (ef_message p, ef_messageType p).
Proof.
  unfold readEvent.
  destruct (JS.getProp event "type") as [ty|e]; simpl; [|discriminate].
  destruct (JS.strictEqStr ty "message"); [|discriminate].
  destruct (JS.getProp event "source") as [source|e]; simpl; [|discriminate].
  destruct (JS.getProp source "userId") as [uid|e]; simpl; [|discriminate].
  destruct (JS.getProp event "message") as [m|e]; simpl; [|discriminate].
  destruct (JS.getProp m "id") as [mid|e]; simpl; [|discriminate].
  destruct (JS.getProp event "timestamp") as [ts|e]; simpl; [|discriminate].
  destruct (normalize event) as [[msg mty]|e]; simpl; [|discriminate].
  intros H. inversion H. reflexivity.
Qed.

Lemma recognized_closed (tag : jsval) : recognized tag -> In tag closedKinds.
Proof.
  intros (t & Hin & ->). unfold closedKinds.
  apply in_map, in_or_app. left. exact Hin.
Qed.

Lemma Forall2_rows {A B C} (R : A -> B -> Prop) (f : B -> C) (P : C -> Prop)
  (xs : list A) (ys : list B) :
  Forall2 R xs ys ->
  (forall x y, In x xs -> R x y -> P (f y)) ->
  Forall P (map f ys).
Proof.
  induction 1 as [|x y xs ys HR _ IH]; intros HP; simpl; constructor.
  - apply (HP x y); [left; reflexivity | assumption].
  - apply IH. intros x' y' Hin. apply HP. right. assumption.
Qed.

Lemma filter_prefix_In {A} (f : A -> bool) (l done rest : list A) (x : A) :
  filter f l = (done ++ rest)%list -> In x done -> In x l.
Proof.
  intros Hf Hin.
  assert (Hx : In x (filter f l)) by (rewrite Hf; apply in_or_app; auto).
  apply filter_In in Hx. tauto.
Qed.

(** A whole request whose events can be read: the handler answers, the
    message events handled to the end are a prefix of the batch's message
    events, and the trace and the sheet grow by their stretches and rows
    in that order. *)
Lemma lineWebhook_runs (W : World) (request : Request) (elems : list jsval)
  (s : State) :
  eventsOf request = Ok elems ->
  exists (done rest : list jsval) runs tail resp,
    lineWebhook W request s =
      (Ok resp,
       advanced s (List.concat (map fst runs) ++ tail) (map snd runs)) /\
    filter isMessage elems = (done ++ rest)%list /\
    Forall2 (fun event run => eventRun W event (fst run) (snd run)) done runs /\
    (resp = OK -> rest = [] /\ tail = []).
Proof.
  intros He. rewrite lineWebhook_run, He.
  destruct (validateSignature W _ _ _) as [[|]|e].
  - destruct (forOf_runs W elems s)
      as (done & rest & runs & tail & r & Hfor & Hfilter & Hall & Hok).
    rewrite Hfor. destruct r as [[]|e].
    + exists done, rest, runs, tail, OK. repeat split; try assumption;
        apply Hok; reflexivity.
    + exists done, rest, runs,
        (tail ++ [Log "error" "Error processing LINE webhook"])%list,
        InternalServerError.
      unfold logged, advanced. cbn [trace sheet].
      rewrite <- !app_assoc. repeat split; try assumption; discriminate.
  - exists [], (filter isMessage elems), [],
      [Log "error" "Invalid LINE signature"], Unauthorized.
    unfold logged, advanced. cbn. rewrite app_nil_r.
    repeat split; try constructor; discriminate.
  - exists [], (filter isMessage elems), [],
      [Log "error" "Error processing LINE webhook"], InternalServerError.
    unfold logged, advanced. cbn. rewrite app_nil_r.
    repeat split; try constructor; discriminate.
Qed.

(** ** The kind column *)

Lemma readEvent_fields (event : jsval) (p : EventFields) :
  readEvent event = Ok (Some p) ->
  exists source m,
    JS.getProp event "source" = Ok source /\
    JS.getProp source "userId" = Ok (ef_userId p) /\
    JS.getProp event "message" = Ok m /\
    JS.getProp m "id" = Ok (ef_messageId p) /\
    JS.getProp event "timestamp" = Ok (ef_timestamp p).
Proof.
  unfold readEvent.
  destruct (JS.getProp event "type") as [ty|e]; simpl; [|discriminate].
  destruct (JS.strictEqStr ty "message"); [|discriminate].
  destruct (JS.getProp event "source") as [source|e]; simpl; [|discriminate].
  destruct (JS.getProp source "userId") as [uid|e] eqn:Huid; simpl;
    [|discriminate].
  destruct (JS.getProp event "message") as [m|e]; simpl; [|discriminate].
  destruct (JS.getProp m "id") as [mid|e] eqn:Hmid; simpl; [|discriminate].
  destruct (JS.getProp event "timestamp") as [ts|e]; simpl; [|discriminate].
  destruct (normalize event) as [[msg mty]|e]; simpl; [|discriminate].
  intros H. inversion H. cbn. exists source, m. repeat split; assumption.
Qed.

Lemma Forall2_map_snd {A B C} (R : A -> B * C -> Prop) (Q : A -> C -> Prop)
  (xs : list A) (ys : list (B * C)) :
  Forall2 R xs ys ->
  (forall x y, R x y -> Q x (snd y)) ->
  Forall2 Q xs (map snd ys).
Proof.
  induction 1 as [|x y xs ys HR _ IH]; intros HQ; simpl; constructor; auto.
Qed.

(** C2, as the code has it. The rows that a request adds to the sheet are
    those of a prefix of its message events, one row per event in the
    order of the batch, and each row carries its own event's fields: the
    sender and message identifiers of that event, the body and the kind
    that the normalizer gives for that event, and as its kind that
    event's message-type tag, verbatim. For a tag that is not one of the
    seven recognized ones the body is the fixed "Unsupported message
    type" while the kind stays the transport's own tag. *)
Theorem kind_is_transport_tag (W : World) (request : Request)
  (elems : list jsval) (s : State) :
  eventsOf request = Ok elems ->
  exists (done rest : list jsval) rows,
    filter isMessage elems = (done ++ rest)%list /\
    sheet (snd (lineWebhook W request s)) = (sheet s ++ rows)%list /\
    (fst (lineWebhook W request s) = Ok OK -> rest = []) /\
    Forall2
      (fun event row =>
         exists source m,
           JS.getProp event "source" = Ok source /\
           JS.getProp source "userId" = Ok (column 1 row) /\
           JS.getProp event "message" = Ok m /\
           JS.getProp m "id" = Ok (column 3 row) /\
           JS.getProp m "type" = Ok (column 5 row) /\
           normalize event = Ok (column 4 row, column 5 row) /\
           (~ recognized (column 5 row) ->
            column 4 row = JStr "Unsupported message type"))
      done rows.
Proof.
  intros He.
  destruct (lineWebhook_runs W request elems s He)
    as (done & rest & runs & tail & resp & Hrun & Hfilter & Hall & Hok).
  rewrite Hrun. cbn [fst snd advanced sheet].
  exists done, rest, (map snd runs).
  split; [exact Hfilter|]. split; [reflexivity|].
  split; [intros Hresp; apply Hok; congruence|].
  apply (Forall2_map_snd _ _ done runs Hall).
  intros event run (p & iso & name & Hread & _ & Hrow & _).
  destruct (readEvent_fields _ _ Hread)
    as (source & m & Hsource & Huid & Hm & Hmid & _).
  pose proof (readEvent_normalize _ _ Hread) as Hnorm.
  destruct (normalize_kind _ _ _ Hnorm) as (m' & Hm' & Htag & Hbody).
  rewrite Hm in Hm'. inversion Hm'. subst m'.
  exists source, m. rewrite Hrow. cbn.
  repeat split; assumption.
Qed.

Lemma kind_is_transport_tag_witness :
  eventsOf (Scenario.batch [Scenario.hi; Scenario.contact]) =
    Ok [Scenario.hi; Scenario.contact] /\
  exists (done rest : list jsval) rows,
    filter isMessage [Scenario.hi; Scenario.contact] = (done ++ rest)%list /\
    sheet (snd (lineWebhook (Scenario.friendly "Alice")
                  (Scenario.batch [Scenario.hi; Scenario.contact])
                  Scenario.start)) = (sheet Scenario.start ++ rows)%list /\
    (fst (lineWebhook (Scenario.friendly "Alice")
            (Scenario.batch [Scenario.hi; Scenario.contact])
            Scenario.start) = Ok OK -> rest = []) /\
    Forall2
      (fun event row =>
         exists source m,
           JS.getProp event "source" = Ok source /\
           JS.getProp source "userId" = Ok (column 1 row) /\
           JS.getProp event "message" = Ok m /\
           JS.getProp m "id" = Ok (column 3 row) /\
           JS.getProp m "type" = Ok (column 5 row) /\
           normalize event = Ok (column 4 row, column 5 row) /\
           (~ recognized (column 5 row) ->
            column 4 row = JStr "Unsupported message type"))
      done rows.
Proof.
  split; [reflexivity|].
  apply (kind_is_transport_tag (Scenario.friendly "Alice")
           (Scenario.batch [Scenario.hi; Scenario.contact])
           [Scenario.hi; Scenario.contact] Scenario.start).
  reflexivity.
Defined.

Example kind_rows_of_hi_and_contact :
  sheet (snd (lineWebhook (Scenario.friendly "Alice")
                (Scenario.batch [Scenario.hi; Scenario.contact])
                Scenario.start)) =
  [Scenario.hiRow;
   [JStr "2023-11-14T22:13:23.000Z"; JStr "U1"; JStr "Alice"; JStr "M4";
    JStr "Unsupported message type"; JStr "contact"]].
Proof. reflexivity. Qed.

(** C2, as the specification has it, fails: a message whose type tag is
    "contact" reaches the sheet with the kind "contact", which is neither
    in the closed set nor "unsupported". *)
Lemma kind_outside_closed_set :
  let s' := snd (lineWebhook (Scenario.friendly "Alice")
                   (Scenario.batch [Scenario.contact]) Scenario.start) in
  let row := [JStr "2023-11-14T22:13:23.000Z"; JStr "U1"; JStr "Alice";
              JStr "M4"; JStr "Unsupported message type"; JStr "contact"] in
  sheet s' = [row] /\
  ~ In (column 5 row) closedKinds /\
  column 5 row <> JStr "unsupported".
Proof.
  split; [reflexivity|]. split.
  - cbn. intros H.
    repeat (destruct H as [H|H]; [discriminate H|]). exact H.
  - cbn. discriminate.
Qed.

(** ** The row *)

Lemma toISOString_scenario (dp : string -> option Z) :
  Date.toISOString dp (JNum 1700000000000) = Ok "2023-11-14T22:13:20.000Z".
Proof. reflexivity. Qed.

(** C7. A row that [appendToGoogleSheet] adds to the sheet is the six
    cells: ISO-8601 text of the timestamp, sender id, display name,
    message id, body, kind, in this order; and the text message "hi" of
    scenario 1 (sender "U1", message "M1", timestamp 1700000000000), with
    a lookup answering "Alice", adds exactly the row of the scenario. *)
Theorem row_is_six_columns (W : World) :
  (forall data s,
     let s' := snd (appendToGoogleSheet W data s) in
     sheet s' = sheet s \/
     exists t,
       Date.timeValue (dateParse W) (timestamp data) = Ok (Some t) /\
       sheet s' =
       (sheet s ++
        [[JStr (Date.isoFormat t); userId data; displayName data;
          messageId data; message data; messageType data]])%list) /\
  (forall s profile,
     validateSignature W (verifierBody (Scenario.batch [Scenario.hi]))
       (LINE_CHANNEL_SECRET W)
       (header "x-line-signature" (headers (Scenario.batch [Scenario.hi])))
     = Ok true ->
     getProfile W (trace s) (JStr "U1") = Ok profile ->
     JS.getProp profile "displayName" = Ok (JStr "Alice") ->
     sheetsAppend W (trace s ++ [GetProfile (JStr "U1")]) Scenario.hiRow
     = Ok tt ->
     lineWebhook W (Scenario.batch [Scenario.hi]) s =
     (Ok OK,
      advanced s
        [GetProfile (JStr "U1"); SheetsAppend Scenario.hiRow;
         Log "info" "Data appended to Google Sheet"]
        [Scenario.hiRow])).
Proof.
  split.
  - intros data s. cbn zeta. rewrite appendToGoogleSheet_run.
    unfold Date.toISOString.
    destruct (Date.timeValue (dateParse W) (timestamp data)) as [[t|]|e];
      cbn [rbind]; try (left; reflexivity).
    destruct (sheetsAppend W (trace s) (rowOf (Date.isoFormat t) data))
      as [[]|e]; [|left; reflexivity].
    right. exists t. split; reflexivity.
  - intros s profile Hsig Hprofile Hname Happend.
    rewrite lineWebhook_run, Hsig.
    change (eventsOf (Scenario.batch [Scenario.hi])) with (Ok [Scenario.hi]).
    cbn [forOf]. unfold bind at 1. rewrite handleEvent_readEvent.
    change (readEvent Scenario.hi) with
      (Ok (Some {| ef_userId := JStr "U1"; ef_messageId := JStr "M1";
                   ef_timestamp := JNum 1700000000000;
                   ef_message := JStr "hi"; ef_messageType := JStr "text" |})).
    cbn [ef_userId]. unfold bind. rewrite getUserDisplayName_run, Hprofile.
    cbn [rbind]. rewrite Hname. rewrite appendToGoogleSheet_run.
    cbn [timestamp recordOf ef_timestamp trace sheet].
    rewrite toISOString_scenario.
    change (rowOf _ _) with Scenario.hiRow. rewrite Happend.
    unfold ret, advanced. rewrite <- !app_assoc. reflexivity.
Qed.

Lemma row_is_six_columns_witness :
  lineWebhook (Scenario.friendly "Alice") (Scenario.batch [Scenario.hi])
    Scenario.start =
  (Ok OK,
   advanced Scenario.start
     [GetProfile (JStr "U1");
      SheetsAppend
        [JStr "2023-11-14T22:13:20.000Z"; JStr "U1"; JStr "Alice"; JStr "M1";
         JStr "hi"; JStr "text"];
      Log "info" "Data appended to Google Sheet"]
     [[JStr "2023-11-14T22:13:20.000Z"; JStr "U1"; JStr "Alice"; JStr "M1";
       JStr "hi"; JStr "text"]]).
Proof.
  apply (proj2 (row_is_six_columns (Scenario.friendly "Alice"))
           Scenario.start (Scenario.profileNamed "Alice"));
    reflexivity.
Defined.

(** ** Order within a request *)

(** C9. The events of a request are handled one at a time, in the order
    of the batch: the trace grows by one stretch of effects per handled
    message event (its lookup, then its append), the stretches in arrival
    order, and the sheet grows by their rows in the same order. When the
    response is 200 every message event of the batch has been handled. *)
Theorem appends_follow_arrival_order (W : World) (request : Request)
  (elems : list jsval) (s : State) :
  eventsOf request = Ok elems ->
  exists (done rest : list jsval) runs tail,
    filter isMessage elems = (done ++ rest)%list /\
    Forall2 (fun event run => eventRun W event (fst run) (snd run)) done runs /\
    trace (snd (lineWebhook W request s)) =
      (trace s ++ List.concat (map fst runs) ++ tail)%list /\
    sheet (snd (lineWebhook W request s)) = (sheet s ++ map snd runs)%list /\
    (fst (lineWebhook W request s) = Ok OK -> rest = [] /\ tail = []).
Proof.
  intros He.
  destruct (lineWebhook_runs W request elems s He)
    as (done & rest & runs & tail & resp & Hrun & Hfilter & Hall & Hok).
  exists done, rest, runs, tail. rewrite Hrun. cbn [fst snd advanced trace sheet].
  repeat split; try assumption; apply Hok; congruence.
Qed.

Lemma appends_follow_arrival_order_witness :
  eventsOf (Scenario.batch [Scenario.hi; Scenario.follow; Scenario.sticker42])
  = Ok [Scenario.hi; Scenario.follow; Scenario.sticker42] /\
  exists (done rest : list jsval) runs tail,
    filter isMessage [Scenario.hi; Scenario.follow; Scenario.sticker42] =
      (done ++ rest)%list /\
    Forall2
      (fun event run =>
         eventRun (Scenario.friendly "Alice") event (fst run) (snd run))
      done runs /\
    trace (snd (lineWebhook (Scenario.friendly "Alice")
                  (Scenario.batch
                     [Scenario.hi; Scenario.follow; Scenario.sticker42])
                  Scenario.start)) =
      (trace Scenario.start ++ List.concat (map fst runs) ++ tail)%list /\
    sheet (snd (lineWebhook (Scenario.friendly "Alice")
                  (Scenario.batch
                     [Scenario.hi; Scenario.follow; Scenario.sticker42])
                  Scenario.start)) =
      (sheet Scenario.start ++ map snd runs)%list /\
    (fst (lineWebhook (Scenario.friendly "Alice")
            (Scenario.batch
               [Scenario.hi; Scenario.follow; Scenario.sticker42])
            Scenario.start) = Ok OK -> rest = [] /\ tail = []).
Proof.
  split; [reflexivity|].
  apply (appends_follow_arrival_order (Scenario.friendly "Alice")
           (Scenario.batch [Scenario.hi; Scenario.follow; Scenario.sticker42])
           [Scenario.hi; Scenario.follow; Scenario.sticker42] Scenario.start).
  reflexivity.
Defined.

(** ** Failures *)

Lemma logged_lookups (s : State) (level msg : string) :
  lookups (trace (logged s level msg)) = lookups (trace s).
Proof.
  unfold lookups, logged. cbn [trace]. rewrite filter_app, length_app.
  cbn. lia.
Qed.

Lemma logged_appends (s : State) (level msg : string) :
  appends (trace (logged s level msg)) = appends (trace s).
Proof.
  unfold appends, logged. cbn [trace]. rewrite filter_app, length_app.
  cbn. lia.
Qed.

(** An event whose handling throws adds no row. *)
Lemma handleEvent_throw_sheet (W : World) (event : jsval) (s s' : State)
  (e : exn) :
  handleEvent W event s = (Throw e, s') -> sheet s' = sheet s.
Proof.
  intros H.
  destruct (handleEvent_cases W event s)
    as [[_ Hrun] | [[_ (seg & row & _ & Hrun)] | (e' & tail & Hrun)]];
    rewrite Hrun in H; inversion H. reflexivity.
Qed.

(** C5. When the handling of the k-th event of a batch throws, the
    handler answers 500; its final state is the state at the throw plus
    one log line, so nothing of the later events is run (no lookup, no
    append); and the sheet is what the events before the k-th left: the
    initial rows followed by their rows, in order. *)
Theorem batch_aborts_without_rollback (W : World) (request : Request)
  (pre post : list jsval) (event : jsval) (s s1 s2 : State) (e : exn) :
  validateSignature W (verifierBody request) (LINE_CHANNEL_SECRET W)
    (header "x-line-signature" (headers request)) = Ok true ->
  eventsOf request = Ok (pre ++ event :: post)%list ->
  forOf (handleEvent W) pre s = (Ok tt, s1) ->
  handleEvent W event s1 = (Throw e, s2) ->
  let s' := logged s2 "error" "Error processing LINE webhook" in
  lineWebhook W request s = (Ok InternalServerError, s') /\
  lookups (trace s') = lookups (trace s2) /\
  appends (trace s') = appends (trace s2) /\
  sheet s' = sheet s1 /\
  exists runs,
    Forall2 (fun ev run => eventRun W ev (fst run) (snd run))
      (filter isMessage pre) runs /\
    sheet s1 = (sheet s ++ map snd runs)%list.
Proof.
  intros Hsig He Hpre Hthrow s'. subst s'.
  split; [|split; [|split; [|split]]].
  - rewrite lineWebhook_run, Hsig, He, forOf_app, Hpre.
    cbn [forOf]. unfold bind. rewrite Hthrow. reflexivity.
  - apply logged_lookups.
  - apply logged_appends.
  - cbn [logged sheet]. eapply handleEvent_throw_sheet; eassumption.
  - destruct (forOf_runs W pre s)
      as (done & rest & runs & tail & r & Hfor & Hfilter & Hall & Hok).
    rewrite Hpre in Hfor. inversion Hfor as [[Hr Hs1]].
    destruct (Hok (eq_sym Hr)) as [-> ->].
    rewrite app_nil_r in Hfilter. rewrite Hfilter.
    exists runs. split; [assumption | reflexivity].
Qed.

(** Scenario 4: three messages, the sheet refuses the second append. *)
Lemma batch_aborts_without_rollback_witness :
  let W := Scenario.secondAppendFails in
  let request :=
    Scenario.batch [Scenario.hi; Scenario.sticker42; Scenario.photo] in
  let s1 := snd (handleEvent W Scenario.hi Scenario.start) in
  let s2 := snd (handleEvent W Scenario.sticker42 s1) in
  let s' := logged s2 "error" "Error processing LINE webhook" in
  lineWebhook W request Scenario.start = (Ok InternalServerError, s') /\
  lookups (trace s') = lookups (trace s2) /\
  appends (trace s') = appends (trace s2) /\
  sheet s' = sheet s1 /\
  exists runs,
    Forall2 (fun ev run => eventRun W ev (fst run) (snd run))
      (filter isMessage [Scenario.hi]) runs /\
    sheet s1 = (sheet Scenario.start ++ map snd runs)%list.
Proof.
  intros W request s1 s2.
  apply (batch_aborts_without_rollback W request [Scenario.hi]
           [Scenario.photo] Scenario.sticker42 Scenario.start s1 s2
           (ExternalError "quota exceeded"));
    reflexivity.
Defined.

(** A request whose signature is there and does not verify (the check
    answers [false]) is answered 401 "Unauthorized"; the only effect is
    one log line: no profile lookup, no append request, and the sheet is
    untouched. *)
Theorem invalid_signature_rejected (W : World) (request : Request) (s : State) :
  validateSignature W (verifierBody request) (LINE_CHANNEL_SECRET W)
    (header "x-line-signature" (headers request)) = Ok false ->
  let s' := snd (lineWebhook W request s) in
  fst (lineWebhook W request s) = Ok Unauthorized /\
  trace s' = (trace s ++ [Log "error" "Invalid LINE signature"])%list /\
  lookups (trace s') = lookups (trace s) /\
  appends (trace s') = appends (trace s) /\
  sheet s' = sheet s.
Proof.
  intros Hsig. cbn zeta. rewrite lineWebhook_run, Hsig. cbn [fst snd].
  repeat split.
  - apply logged_lookups.
  - apply logged_appends.
Qed.

(** The same holds of the effects whenever the check does not answer
    [true], also when it throws (the response is then 500). *)
Lemma unverified_request_untouched (W : World) (request : Request) (s : State) :
  validateSignature W (verifierBody request) (LINE_CHANNEL_SECRET W)
    (header "x-line-signature" (headers request)) <> Ok true ->
  let s' := snd (lineWebhook W request s) in
  lookups (trace s') = lookups (trace s) /\
  appends (trace s') = appends (trace s) /\
  sheet s' = sheet s.
Proof.
  intros Hsig. cbn zeta. rewrite lineWebhook_run.
  destruct (validateSignature W _ _ _) as [[|]|e]; [congruence| |];
    cbn [snd]; repeat split;
    first [apply logged_lookups | apply logged_appends].
Qed.

(** Scenario 3. *)
Lemma invalid_signature_rejected_witness :
  let request := Scenario.batch [Scenario.hi; Scenario.sticker42] in
  let s' := snd (lineWebhook Scenario.rejecting request Scenario.start) in
  fst (lineWebhook Scenario.rejecting request Scenario.start)
  = Ok Unauthorized /\
  trace s' =
    (trace Scenario.start ++ [Log "error" "Invalid LINE signature"])%list /\
  lookups (trace s') = lookups (trace Scenario.start) /\
  appends (trace s') = appends (trace Scenario.start) /\
  sheet s' = sheet Scenario.start.
Proof.
  intros request.
  apply (invalid_signature_rejected Scenario.rejecting request Scenario.start).
  reflexivity.
Defined.

(** C6 fails on the code for a request without signature. The handler
    reads the header as if it were always there (line 279) and hands the
    check [undefined]; when the check throws on that, as the SDK's does,
    the throw lands in the outer catch and the request is answered 500
    "Internal Server Error", not 401 "Unauthorized". Nothing of the batch
    is processed: no lookup, no append, the sheet untouched. *)
Theorem missing_signature_answered_500 (W : World) (request : Request)
  (s : State) (e : exn) :
  header "x-line-signature" (headers request) = None ->
  validateSignature W (verifierBody request) (LINE_CHANNEL_SECRET W) None
  = Throw e ->
  let s' := snd (lineWebhook W request s) in
  fst (lineWebhook W request s) = Ok InternalServerError /\
  fst (lineWebhook W request s) <> Ok Unauthorized /\
  trace s' = (trace s ++ [Log "error" "Error processing LINE webhook"])%list /\
  lookups (trace s') = lookups (trace s) /\
  appends (trace s') = appends (trace s) /\
  sheet s' = sheet s.
Proof.
  intros Hheader Hcheck. cbn zeta.
  rewrite lineWebhook_run, Hheader, Hcheck. cbn [fst snd].
  split; [reflexivity|]. split; [discriminate|]. split; [reflexivity|].
  split; [apply logged_lookups|]. split; [apply logged_appends|].
  reflexivity.
Qed.

(** The batch of scenario 3, sent with no signature header at all. *)
Lemma missing_signature_answered_500_witness :
  let request := Scenario.unsigned [Scenario.hi; Scenario.sticker42] in
  let s' := snd (lineWebhook Scenario.sdkCheck request Scenario.start) in
  fst (lineWebhook Scenario.sdkCheck request Scenario.start)
  = Ok InternalServerError /\
  fst (lineWebhook Scenario.sdkCheck request Scenario.start)
  <> Ok Unauthorized /\
  trace s' =
    (trace Scenario.start ++
     [Log "error" "Error processing LINE webhook"])%list /\
  lookups (trace s') = lookups (trace Scenario.start) /\
  appends (trace s') = appends (trace Scenario.start) /\
  sheet s' = sheet Scenario.start.
Proof.
  intros request.
  apply (missing_signature_answered_500 Scenario.sdkCheck request
           Scenario.start
           (TypeError "The first argument must be of type string"));
    reflexivity.
Defined.

Example wrong_signature_answered_401 :
  fst (lineWebhook Scenario.sdkCheck
         {| headers := [("x-line-signature", "d3Jvbmc=")];
            rawBody := rawBody (Scenario.batch [Scenario.hi]);
            body := body (Scenario.batch [Scenario.hi]) |}
         Scenario.start) = Ok Unauthorized.
Proof. reflexivity. Qed.

(** ** Batches without message events *)

Lemma notMessage_readEvent (event : jsval) :
  notMessage event = true -> readEvent event = Ok None.
Proof.
  unfold notMessage, readEvent.
  destruct (JS.getProp event "type") as [ty|e]; cbn [rbind]; [|discriminate].
  destruct (JS.strictEqStr ty "message"); [discriminate | reflexivity].
Qed.

Lemma forOf_skips (W : World) (l : list jsval) (s : State) :
  forallb notMessage l = true -> forOf (handleEvent W) l s = (Ok tt, s).
Proof.
  induction l as [|event l IH]; cbn [forallb forOf]; intros H.
  - reflexivity.
  - apply andb_prop in H as [Hev Hl].
    unfold bind. rewrite handleEvent_readEvent, (notMessage_readEvent _ Hev).
    apply IH. assumption.
Qed.

(** C10. A validly signed request whose [events] array is empty, or holds
    only events of a type other than "message", is answered 200 "OK" and
    leaves the state as it was: no profile lookup, no append. *)
Theorem no_message_events_no_effects (W : World) (request : Request)
  (elems : list jsval) (s : State) :
  validateSignature W (verifierBody request) (LINE_CHANNEL_SECRET W)
    (header "x-line-signature" (headers request)) = Ok true ->
  JS.getProp (body request) "events" = Ok (JArr elems) ->
  forallb notMessage elems = true ->
  lineWebhook W request s = (Ok OK, s) /\
  lookups (trace (snd (lineWebhook W request s))) = lookups (trace s) /\
  appends (trace (snd (lineWebhook W request s))) = appends (trace s) /\
  sheet (snd (lineWebhook W request s)) = sheet s.
Proof.
  intros Hsig Hevents Hskip.
  assert (Hrun : lineWebhook W request s = (Ok OK, s)).
  { rewrite lineWebhook_run, Hsig. unfold eventsOf. rewrite Hevents.
    cbn [rbind iterate]. rewrite (forOf_skips W elems s Hskip). reflexivity. }
  rewrite Hrun. repeat split.
Qed.

Lemma no_message_events_no_effects_witness :
  (lineWebhook (Scenario.friendly "Alice") (Scenario.batch []) Scenario.start
   = (Ok OK, Scenario.start)) /\
  (lineWebhook (Scenario.friendly "Alice")
     (Scenario.batch [Scenario.follow; Scenario.follow]) Scenario.start
   = (Ok OK, Scenario.start)).
Proof.
  split.
  - apply (no_message_events_no_effects (Scenario.friendly "Alice")
             (Scenario.batch []) [] Scenario.start); reflexivity.
  - apply (no_message_events_no_effects (Scenario.friendly "Alice")
             (Scenario.batch [Scenario.follow; Scenario.follow])
             [Scenario.follow; Scenario.follow] Scenario.start); reflexivity.
Defined.

(** ** The display name *)

Lemma sheet_grows_absurd {A} (l : list A) (x : A) : l = (l ++ [x])%list -> False.
Proof.
  intros H. apply (f_equal (@List.length A)) in H.
  rewrite length_app in H. cbn in H. lia.
Qed.

(** C3. When the profile lookup fails, for whatever reason,
    [getUserDisplayName] returns the sentinel "Unknown User" and does not
    throw; the handler goes on to [appendToGoogleSheet] with the record of
    the event carrying the sentinel, and once the sheet accepts the append
    that row is in it. *)
Theorem lookup_failure_yields_sentinel (W : World) (uid : jsval) (s : State)
  (e : exn) :
  getProfile W (trace s) uid = Throw e ->
  let s1 := {| trace := (trace s ++ [GetProfile uid]) ++
                        [Log "error" "Error getting user profile"];
               sheet := sheet s |} in
  getUserDisplayName W uid s = (Ok (JStr "Unknown User"), s1) /\
  forall event p,
    readEvent event = Ok (Some p) ->
    ef_userId p = uid ->
    let data := recordOf p (JStr "Unknown User") in
    handleEvent W event s = appendToGoogleSheet W data s1 /\
    forall iso,
      Date.toISOString (dateParse W) (ef_timestamp p) = Ok iso ->
      sheetsAppend W (trace s1) (rowOf iso data) = Ok tt ->
      fst (handleEvent W event s) = Ok tt /\
      sheet (snd (handleEvent W event s)) =
      (sheet s ++ [[JStr iso; uid; JStr "Unknown User"; ef_messageId p;
                    ef_message p; ef_messageType p]])%list.
Proof.
  intros Hfail s1.
  assert (Hname : getUserDisplayName W uid s = (Ok (JStr "Unknown User"), s1)).
  { rewrite getUserDisplayName_run, Hfail. reflexivity. }
  split; [exact Hname|].
  intros event p Hread Huid data.
  assert (Hrun : handleEvent W event s = appendToGoogleSheet W data s1).
  { rewrite handleEvent_readEvent, Hread. unfold bind.
    rewrite Huid, Hname. reflexivity. }
  split; [exact Hrun|].
  intros iso Hiso Happend. rewrite Hrun, appendToGoogleSheet_run.
  cbn [timestamp data recordOf]. rewrite Hiso.
  change (rowOf iso (recordOf p (JStr "Unknown User"))) with (rowOf iso data).
  rewrite Happend. cbn [fst snd sheet]. subst data.
  unfold rowOf, recordOf. cbn. rewrite Huid. split; reflexivity.
Qed.

Lemma lookup_failure_yields_sentinel_witness :
  getUserDisplayName Scenario.lookupDown (JStr "U1") Scenario.start =
    (Ok (JStr "Unknown User"),
     {| trace := [GetProfile (JStr "U1");
                  Log "error" "Error getting user profile"];
        sheet := [] |}) /\
  sheet (snd (handleEvent Scenario.lookupDown Scenario.hi Scenario.start)) =
    [[JStr "2023-11-14T22:13:20.000Z"; JStr "U1"; JStr "Unknown User";
      JStr "M1"; JStr "hi"; JStr "text"]].
Proof.
  destruct (lookup_failure_yields_sentinel Scenario.lookupDown (JStr "U1")
              Scenario.start (ExternalError "404 Not Found") eq_refl)
    as [Hname Hevent].
  split; [exact Hname|].
  destruct (Hevent Scenario.hi
              {| ef_userId := JStr "U1"; ef_messageId := JStr "M1";
                 ef_timestamp := JNum 1700000000000;
                 ef_message := JStr "hi"; ef_messageType := JStr "text" |}
              eq_refl eq_refl) as [_ Hrow].
  exact (proj2 (Hrow "2023-11-14T22:13:20.000Z" eq_refl eq_refl)).
Defined.

(** C8, as the code has it. The display name of a row is the sentinel
    "Unknown User", which is populated, when the lookup failed, and
    otherwise exactly what the profile answered under [displayName]; the
    handler puts nothing in its place when that is empty or missing. *)
Theorem displayName_sentinel_or_profile (W : World) (event : jsval)
  (s : State) (row : list jsval) :
  sheet (snd (handleEvent W event s)) = (sheet s ++ [row])%list ->
  populated (JStr "Unknown User") /\
  exists p,
    readEvent event = Ok (Some p) /\
    match rbind (getProfile W (trace s) (ef_userId p))
            (fun profile => JS.getProp profile "displayName") with
    | Ok name => column 2 row = name
    | Throw _ => column 2 row = JStr "Unknown User"
    end.
Proof.
  intros H. split; [split; discriminate|].
  rewrite handleEvent_readEvent in H.
  destruct (readEvent event) as [[p|]|e]; cbn [snd] in H;
    try (exfalso; exact (sheet_grows_absurd _ _ H)).
  exists p. split; [reflexivity|].
  unfold bind in H. rewrite getUserDisplayName_run in H.
  destruct (rbind (getProfile W (trace s) (ef_userId p))
              (fun profile => JS.getProp profile "displayName")) as [name|e];
    rewrite appendToGoogleSheet_run in H;
    cbn [timestamp recordOf trace sheet] in H;
    (destruct (Date.toISOString (dateParse W) (ef_timestamp p)) as [iso|e'];
     [ destruct (sheetsAppend W _ _) as [[]|e']
     | ]);
    cbn [snd sheet] in H;
    try (exfalso; exact (sheet_grows_absurd _ _ H));
    apply app_inv_head in H; inversion H; reflexivity.
Qed.

Lemma displayName_sentinel_or_profile_witness :
  populated (JStr "Unknown User") /\
  exists p,
    readEvent Scenario.hi = Ok (Some p) /\
    match rbind (getProfile (Scenario.friendly "Alice") (trace Scenario.start)
                   (ef_userId p))
            (fun profile => JS.getProp profile "displayName") with
    | Ok name => column 2 Scenario.hiRow = name
    | Throw _ => column 2 Scenario.hiRow = JStr "Unknown User"
    end.
Proof.
  apply (displayName_sentinel_or_profile (Scenario.friendly "Alice")
           Scenario.hi Scenario.start Scenario.hiRow).
  reflexivity.
Defined.

(** C8, as the specification has it, fails: when the profile service
    answers an empty display name, the row reaches the sheet with an
    empty display name. *)
Lemma displayName_can_be_empty :
  let s' := snd (lineWebhook (Scenario.friendly "")
                   (Scenario.batch [Scenario.hi]) Scenario.start) in
  let row := [JStr "2023-11-14T22:13:20.000Z"; JStr "U1"; JStr ""; JStr "M1";
              JStr "hi"; JStr "text"] in
  sheet s' = [row] /\ ~ populated (column 2 row).
Proof.
  split; [reflexivity|].
  intros [Hempty _]. apply Hempty. reflexivity.
Qed.

(** ** The signed body *)

(** The handler's input to the signature check is a function of the
    parsed body alone: the bytes that arrived play no part in it. *)
Lemma verifierBody_ignores_rawBody (r1 r2 : Request) :
  body r1 = body r2 -> verifierBody r1 = verifierBody r2.
Proof. unfold verifierBody. intros ->. reflexivity. Qed.

(** C1 fails on the code. The sender signed the bytes of [spacedText];
    the framework parsed them into [request.body]; the handler hands the
    signature check the compact re-serialization of that object, which is
    a different text, so a check that accepts exactly the signed bytes
    rejects the request with 401. *)
Theorem reserialized_body_differs :
  JSON.parse (rawBody Scenario.spaced) = Some (body Scenario.spaced) /\
  verifierBody Scenario.spaced = Some Scenario.compactText /\
  verifierBody Scenario.spaced <> Some (rawBody Scenario.spaced) /\
  lineWebhook (Scenario.exactVerifier (rawBody Scenario.spaced))
    Scenario.spaced Scenario.start =
  (Ok Unauthorized, logged Scenario.start "error" "Invalid LINE signature").
Proof.
  split; [reflexivity|]. split; [reflexivity|]. split; [|reflexivity].
  discriminate.
Qed.

(** ** Further properties of the webhook *)

(** Whatever the request and whatever the collaborators do, the handler
    does not throw: it answers 200, 401 or 500. *)
Theorem lineWebhook_always_answers (W : World) (request : Request) (s : State) :
  exists resp,
    fst (lineWebhook W request s) = Ok resp /\
    (resp = OK \/ resp = Unauthorized \/ resp = InternalServerError).
Proof.
  rewrite lineWebhook_run.
  destruct (validateSignature W _ _ _) as [[|]|e].
  - destruct (eventsOf request) as [elems|e].
    + destruct (forOf (handleEvent W) elems s) as [[[]|e] s'];
        eexists; split; try reflexivity; auto.
    + eexists; split; [reflexivity | auto].
  - eexists; split; [reflexivity | auto].
  - eexists; split; [reflexivity | auto].
Qed.

(** A validly signed request whose body has no iterable [events] (the
    body is null, or [events] is missing, null, a number, a boolean or an
    object) is answered 500; the only effect is one log line. *)
Theorem malformed_envelope_is_500 (W : World) (request : Request) (s : State) :
  validateSignature W (verifierBody request) (LINE_CHANNEL_SECRET W)
    (header "x-line-signature" (headers request)) = Ok true ->
  malformedEnvelope request = true ->
  lineWebhook W request s =
    (Ok InternalServerError,
     logged s "error" "Error processing LINE webhook") /\
  lookups (trace (snd (lineWebhook W request s))) = lookups (trace s) /\
  appends (trace (snd (lineWebhook W request s))) = appends (trace s) /\
  sheet (snd (lineWebhook W request s)) = sheet s.
Proof.
  intros Hsig Hbad.
  assert (Hrun : lineWebhook W request s =
                 (Ok InternalServerError,
                  logged s "error" "Error processing LINE webhook")).
  { rewrite lineWebhook_run, Hsig. unfold eventsOf.
    unfold malformedEnvelope in Hbad.
    destruct (JS.getProp (body request) "events") as [v|e]; cbn [rbind];
      [|reflexivity].
    destruct v; cbn in Hbad; try discriminate; reflexivity. }
  rewrite Hrun. cbn [snd]. repeat split.
  - apply logged_lookups.
  - apply logged_appends.
Qed.

Lemma malformed_envelope_is_500_witness :
  let request :=
    {| headers := [("x-line-signature", "c2lnbmF0dXJl")];
       rawBody := "{}";
       body := JObj [] |} in
  lineWebhook (Scenario.friendly "Alice") request Scenario.start =
    (Ok InternalServerError,
     logged Scenario.start "error" "Error processing LINE webhook") /\
  lookups (trace (snd (lineWebhook (Scenario.friendly "Alice") request
                         Scenario.start))) = lookups (trace Scenario.start) /\
  appends (trace (snd (lineWebhook (Scenario.friendly "Alice") request
                         Scenario.start))) = appends (trace Scenario.start) /\
  sheet (snd (lineWebhook (Scenario.friendly "Alice") request
                Scenario.start)) = sheet Scenario.start.
Proof.
  intros request.
  apply (malformed_envelope_is_500 (Scenario.friendly "Alice") request
           Scenario.start); reflexivity.
Defined.

Lemma lookups_app (a b : list effect) :
  lookups (a ++ b) = (lookups a + lookups b)%nat.
Proof. unfold lookups. rewrite filter_app, length_app. reflexivity. Qed.

Lemma appends_app (a b : list effect) :
  appends (a ++ b) = (appends a + appends b)%nat.
Proof. unfold appends. rewrite filter_app, length_app. reflexivity. Qed.

Lemma advanced_nil (s : State) : advanced s [] [] = s.
Proof. destruct s. unfold advanced. cbn. rewrite !app_nil_r. reflexivity. Qed.

Lemma advanced_advanced (s : State) (tr1 tr2 : list effect)
  (rows1 rows2 : list (list jsval)) :
  advanced (advanced s tr1 rows1) tr2 rows2 =
  advanced s (tr1 ++ tr2) (rows1 ++ rows2).
Proof. unfold advanced. cbn. rewrite !app_assoc. reflexivity. Qed.

(** What one pass through the loop body adds: nothing for a skipped
    event; one lookup, one append request and one row for a message event
    handled to the end; at most one lookup, at most as many append
    requests, and no row when it throws. *)
Lemma handleEvent_footprint (W : World) (event : jsval) (s : State) :
  exists r tr rows,
    handleEvent W event s = (r, advanced s tr rows) /\
    ((r = Ok tt /\ isMessage event = false /\ tr = [] /\ rows = []) \/
     (r = Ok tt /\ isMessage event = true /\
      lookups tr = 1%nat /\ appends tr = 1%nat /\ List.length rows = 1%nat) \/
     (exists e, r = Throw e /\ rows = [] /\
                (lookups tr <= 1)%nat /\ (appends tr <= lookups tr)%nat)).
Proof.
  assert (Hstate : forall tr rows tr' rows',
             tr' = (trace s ++ tr)%list -> rows' = (sheet s ++ rows)%list ->
             {| trace := tr'; sheet := rows' |} = advanced s tr rows).
  { intros tr rows tr' rows' -> ->. reflexivity. }
  rewrite handleEvent_readEvent.
  destruct (readEvent event) as [[p|]|e] eqn:Hread.
  - pose proof (readEvent_isMessage _ _ Hread) as Hmsg.
    unfold bind. rewrite getUserDisplayName_run.
    destruct (rbind (getProfile W (trace s) (ef_userId p))
                (fun profile => JS.getProp profile "displayName"))
      as [name|e'];
      rewrite appendToGoogleSheet_run; cbn [timestamp recordOf trace sheet];
      (destruct (Date.toISOString (dateParse W) (ef_timestamp p)) as [iso|e];
       [destruct (sheetsAppend W _ _) as [[]|e]|]).
    + eexists (Ok tt), _, [_]. split.
      * f_equal. apply Hstate; [rewrite <- !app_assoc|]; reflexivity.
      * right; left. repeat split; assumption.
    + eexists (Throw e), _, []. split.
      * f_equal. apply Hstate;
          [rewrite <- !app_assoc | rewrite app_nil_r]; reflexivity.
      * right; right. exists e. repeat split; cbn; lia.
    + eexists (Throw e), _, []. split.
      * f_equal. apply Hstate;
          [rewrite <- !app_assoc | rewrite app_nil_r]; reflexivity.
      * right; right. exists e. repeat split; cbn; lia.
    + eexists (Ok tt), _, [_]. split.
      * f_equal. apply Hstate; [rewrite <- !app_assoc|]; reflexivity.
      * right; left. repeat split; assumption.
    + eexists (Throw e), _, []. split.
      * f_equal. apply Hstate;
          [rewrite <- !app_assoc | rewrite app_nil_r]; reflexivity.
      * right; right. exists e. repeat split; cbn; lia.
    + eexists (Throw e), _, []. split.
      * f_equal. apply Hstate;
          [rewrite <- !app_assoc | rewrite app_nil_r]; reflexivity.
      * right; right. exists e. repeat split; cbn; lia.
  - exists (Ok tt), [], []. rewrite advanced_nil. split; [reflexivity|].
    left. repeat split. apply readEvent_skip. assumption.
  - exists (Throw e), [], []. rewrite advanced_nil. split; [reflexivity|].
    right; right. exists e. repeat split; cbn; lia.
Qed.

(** The same for the whole loop: rows, append requests and lookups stay
    within one of each other, and are equal, one per message event, when
    the loop ends without a throw. *)
Lemma forOf_footprint (W : World) (l : list jsval) (s : State) :
  exists r tr rows,
    forOf (handleEvent W) l s = (r, advanced s tr rows) /\
    (List.length rows <= appends tr)%nat /\
    (appends tr <= lookups tr)%nat /\
    (lookups tr <= List.length rows + 1)%nat /\
    (r = Ok tt ->
     lookups tr = List.length rows /\
     appends tr = List.length rows /\
     List.length rows = List.length (filter isMessage l)).
Proof.
  revert s. induction l as [|event l IH]; intros s.
  - exists (Ok tt), [], []. cbn [forOf]. unfold ret. rewrite advanced_nil.
    cbn. split; [reflexivity|]. do 3 (split; [lia|]). intros _.
    repeat split.
  - cbn [forOf filter]. unfold bind.
    destruct (handleEvent_footprint W event s)
      as (r1 & tr1 & rows1 & Hrun &
          [(-> & Hmsg & -> & ->) |
           [(-> & Hmsg & Hl & Ha & Hr) | (e & -> & -> & Hl & Ha)]]);
      rewrite Hrun.
    + rewrite advanced_nil, Hmsg. apply IH.
    + destruct (IH (advanced s tr1 rows1))
        as (r & tr & rows & Hfor & H1 & H2 & H3 & Hok).
      exists r, (tr1 ++ tr)%list, (rows1 ++ rows)%list.
      rewrite Hfor, advanced_advanced, Hmsg.
      rewrite lookups_app, appends_app, length_app, Hl, Ha, Hr. cbn [List.length].
      split; [reflexivity|]. do 3 (split; [lia|]).
      intros Hr'. destruct (Hok Hr') as (? & ? & ?). lia.
    + exists (Throw e), tr1, []. cbn.
      split; [reflexivity|]. do 3 (split; [lia|]). discriminate.
Qed.

(** When the handler answers 200, it has made exactly one profile lookup
    and one append request, and added one row, for each message event of
    the batch. *)
Theorem one_row_per_message_event (W : World) (request : Request)
  (elems : list jsval) (s : State) :
  eventsOf request = Ok elems ->
  fst (lineWebhook W request s) = Ok OK ->
  let s' := snd (lineWebhook W request s) in
  let n := List.length (filter isMessage elems) in
  List.length (sheet s') = (List.length (sheet s) + n)%nat /\
  lookups (trace s') = (lookups (trace s) + n)%nat /\
  appends (trace s') = (appends (trace s) + n)%nat.
Proof.
  intros He. rewrite lineWebhook_run, He. cbn zeta.
  destruct (validateSignature W _ _ _) as [[|]|e]; cbn [fst];
    try discriminate.
  destruct (forOf_footprint W elems s)
    as (r & tr & rows & Hfor & _ & _ & _ & Hok).
  rewrite Hfor. destruct r as [[]|e]; cbn [fst snd]; [|discriminate].
  intros _. destruct (Hok eq_refl) as (Hl & Ha & Hn).
  unfold advanced. cbn [trace sheet].
  rewrite lookups_app, appends_app, length_app. lia.
Qed.

Lemma one_row_per_message_event_witness :
  let request :=
    Scenario.batch [Scenario.hi; Scenario.follow; Scenario.sticker42] in
  let s' := snd (lineWebhook (Scenario.friendly "Alice") request
                   Scenario.start) in
  List.length (sheet s') = 2%nat /\
  lookups (trace s') = 2%nat /\
  appends (trace s') = 2%nat.
Proof.
  intros request.
  apply (one_row_per_message_event (Scenario.friendly "Alice") request
           [Scenario.hi; Scenario.follow; Scenario.sticker42] Scenario.start);
    reflexivity.
Defined.

Lemma logsOnly_app (a b : list effect) :
  logsOnly a -> logsOnly b -> logsOnly (a ++ b).
Proof.
  unfold logsOnly. intros Ha Hb. rewrite forallb_app, Ha, Hb. reflexivity.
Qed.

Lemma abortedRun_log (tail : list effect) (level msg : string) :
  abortedRun tail -> abortedRun (tail ++ [Log level msg]).
Proof.
  intros [logs H | uid logs H | uid logs1 row logs2 H1 H2].
  - apply aborted_before_lookup. apply logsOnly_app; [assumption|reflexivity].
  - cbn [app]. apply aborted_before_append.
    apply logsOnly_app; [assumption|reflexivity].
  - cbn [app]. rewrite <- app_assoc. cbn [app].
    apply aborted_at_append; [assumption|].
    apply logsOnly_app; [assumption|reflexivity].
Qed.

Lemma eventRun_complete (W : World) (event : jsval) (seg : list effect)
  (row : list jsval) :
  eventRun W event seg row -> completeRun seg row.
Proof.
  intros (p & iso & name & _ & _ & _ & Hseg).
  exists (ef_userId p). exact Hseg.
Qed.

(** The loop body that throws has added no row, and its effects are an
    aborted stretch. *)
Lemma handleEvent_abort (W : World) (event : jsval) (s s' : State) (e : exn) :
  handleEvent W event s = (Throw e, s') ->
  exists tail, s' = advanced s tail [] /\ abortedRun tail.
Proof.
  assert (Hstate : forall tr tr' rows',
             tr' = (trace s ++ tr)%list -> rows' = sheet s ->
             {| trace := tr'; sheet := rows' |} = advanced s tr []).
  { intros tr tr' rows' -> ->. unfold advanced. rewrite app_nil_r.
    reflexivity. }
  rewrite handleEvent_readEvent.
  destruct (readEvent event) as [[p|]|e0]; [| discriminate |].
  - unfold bind. rewrite getUserDisplayName_run.
    destruct (rbind (getProfile W (trace s) (ef_userId p))
                (fun profile => JS.getProp profile "displayName"))
      as [name|e'];
      rewrite appendToGoogleSheet_run; cbn [timestamp recordOf trace sheet];
      (destruct (Date.toISOString (dateParse W) (ef_timestamp p)) as [iso|e1];
       [destruct (sheetsAppend W _ _) as [[]|e1]|]);
      intros H; inversion H; eexists; (split;
        [apply Hstate; [rewrite <- !app_assoc; cbn [app]|]; reflexivity|]).
    + apply (aborted_at_append _ [] _ [_]); reflexivity.
    + apply (aborted_before_append _ [_]); reflexivity.
    + apply (aborted_at_append _ [_] _ [_]); reflexivity.
    + apply (aborted_before_append _ [_; _]); reflexivity.
  - intros H. inversion H. exists []. rewrite advanced_nil.
    split; [reflexivity|]. apply aborted_before_lookup. reflexivity.
Qed.

(** The whole loop: complete stretches, one per row added and in the
    order of the rows, then at most one aborted stretch. *)
Lemma forOf_stretches (W : World) (l : list jsval) (s : State) :
  exists runs tail r,
    forOf (handleEvent W) l s =
      (r, advanced s (List.concat (map fst runs) ++ tail) (map snd runs)) /\
    Forall (fun run => completeRun (fst run) (snd run)) runs /\
    abortedRun tail /\
    (r = Ok tt -> tail = []).
Proof.
  revert s. induction l as [|event l IH]; intros s.
  - exists [], [], (Ok tt). cbn. unfold ret. rewrite advanced_nil.
    split; [reflexivity|]. split; [constructor|].
    split; [apply aborted_before_lookup; reflexivity|]. reflexivity.
  - cbn [forOf]. unfold bind.
    destruct (handleEvent W event s) as [[[]|e] s1] eqn:Hev.
    + destruct (handleEvent_cases W event s)
        as [[_ Hrun] | [[_ (seg & row & Hseg & Hrun)] | (e & tail & Hrun)]];
        rewrite Hrun in Hev; inversion Hev.
      * apply IH.
      * destruct (IH {| trace := trace s ++ seg; sheet := sheet s ++ [row] |})
          as (runs & tail & r & Hfor & Hall & Htail & Hok).
        exists ((seg, row) :: runs), tail, r.
        rewrite Hfor. unfold advanced. cbn. rewrite <- !app_assoc.
        split; [reflexivity|].
        split; [constructor; [eapply eventRun_complete; eassumption
                             | assumption]|].
        split; assumption.
    + destruct (handleEvent_abort W event s s1 e Hev) as (tail & -> & Htail).
      exists [], tail, (Throw e). cbn.
      split; [reflexivity|]. split; [constructor|].
      split; [assumption | discriminate].
Qed.

Lemma logsOnly_counts (logs : list effect) :
  logsOnly logs -> lookups logs = 0%nat /\ appends logs = 0%nat.
Proof.
  unfold logsOnly, lookups, appends.
  induction logs as [|[uid|row|level msg] logs IH]; cbn;
    intros H; try discriminate; auto.
Qed.

Lemma abortedRun_counts (tail : list effect) :
  abortedRun tail ->
  (appends tail <= lookups tail)%nat /\ (lookups tail <= 1)%nat.
Proof.
  intros [logs H | uid logs H | uid logs1 row logs2 H1 H2].
  - destruct (logsOnly_counts _ H) as [-> ->]. lia.
  - change (GetProfile uid :: logs) with ([GetProfile uid] ++ logs)%list.
    rewrite lookups_app, appends_app.
    destruct (logsOnly_counts _ H) as [-> ->]. cbn. lia.
  - change (GetProfile uid :: logs1 ++ SheetsAppend row :: logs2)
      with ([GetProfile uid] ++ logs1 ++ [SheetsAppend row] ++ logs2)%list.
    rewrite !lookups_app, !appends_app.
    destruct (logsOnly_counts _ H1) as [-> ->].
    destruct (logsOnly_counts _ H2) as [-> ->]. cbn. lia.
Qed.

Lemma completeRuns_counts (runs : list (list effect * list jsval)) :
  Forall (fun run => completeRun (fst run) (snd run)) runs ->
  lookups (List.concat (map fst runs)) = List.length runs /\
  appends (List.concat (map fst runs)) = List.length runs.
Proof.
  induction 1 as [|[seg row] runs (uid & [Hseg|Hseg]) _ [IHl IHa]];
    cbn [map List.concat fst List.length]; [split; reflexivity| |];
    cbn [fst snd] in Hseg; subst seg;
    rewrite lookups_app, appends_app, IHl, IHa; cbn; split; reflexivity.
Qed.

(** In every run of the handler, whatever its answer, what it adds to the
    trace is a sequence of complete stretches followed by at most one
    aborted stretch, and what it adds to the sheet is one row per
    complete stretch, in the same order. In a complete stretch the
    profile lookup comes first and the append request that follows asks
    for exactly the row added; the aborted stretch holds at most one
    lookup and, after it, at most one append request, which added no
    row. Hence the append requests are at least the rows and at most the
    lookups, and the lookups exceed the rows by at most one: the handler
    stops at the first event that fails. *)
Theorem handler_stops_at_first_failure (W : World) (request : Request)
  (s : State) :
  exists runs tail,
    snd (lineWebhook W request s) =
      advanced s (List.concat (map fst runs) ++ tail) (map snd runs) /\
    Forall (fun run => completeRun (fst run) (snd run)) runs /\
    abortedRun tail /\
    (fst (lineWebhook W request s) = Ok OK -> tail = []) /\
    let tr := (List.concat (map fst runs) ++ tail)%list in
    let rows := map snd runs in
    (List.length rows <= appends tr)%nat /\
    (appends tr <= lookups tr)%nat /\
    (lookups tr <= List.length rows + 1)%nat.
Proof.
  assert (Hshape : exists runs tail,
            snd (lineWebhook W request s) =
              advanced s (List.concat (map fst runs) ++ tail) (map snd runs) /\
            Forall (fun run => completeRun (fst run) (snd run)) runs /\
            abortedRun tail /\
            (fst (lineWebhook W request s) = Ok OK -> tail = [])).
  { rewrite lineWebhook_run.
    assert (Hlog : forall resp msg,
              resp <> OK ->
              exists runs tail,
                snd (Ok resp, logged s "error" msg) =
                  advanced s (List.concat (map fst runs) ++ tail)
                    (map snd runs) /\
                Forall (fun run => completeRun (fst run) (snd run)) runs /\
                abortedRun tail /\
                (fst (Ok resp, logged s "error" msg) = Ok OK -> tail = [])).
    { intros resp msg Hresp. exists [], [Log "error" msg].
      unfold logged, advanced. cbn. rewrite app_nil_r.
      split; [reflexivity|]. split; [constructor|].
      split; [apply aborted_before_lookup; reflexivity|].
      intros H. inversion H. contradiction. }
    destruct (validateSignature W _ _ _) as [[|]|e];
      try (apply Hlog; discriminate).
    destruct (eventsOf request) as [elems|e];
      try (apply Hlog; discriminate).
    destruct (forOf_stretches W elems s)
      as (runs & tail & r & Hfor & Hall & Htail & Hok).
    rewrite Hfor. destruct r as [[]|e]; cbn [fst snd].
    - exists runs, tail. repeat split; try assumption.
      intros _. apply Hok. reflexivity.
    - exists runs, (tail ++ [Log "error" "Error processing LINE webhook"])%list.
      unfold logged, advanced. cbn [trace sheet]. rewrite <- !app_assoc.
      split; [reflexivity|]. split; [assumption|].
      split; [apply abortedRun_log; assumption|]. discriminate. }
  destruct Hshape as (runs & tail & Hrun & Hall & Htail & Hok).
  exists runs, tail.
  split; [exact Hrun|]. split; [exact Hall|]. split; [exact Htail|].
  split; [exact Hok|]. cbn zeta.
  rewrite lookups_app, appends_app, length_map.
  destruct (completeRuns_counts runs Hall) as [-> ->].
  destruct (abortedRun_counts tail Htail). lia.
Qed.

Lemma handler_stops_at_first_failure_witness :
  let W := Scenario.secondAppendFails in
  let request :=
    Scenario.batch [Scenario.hi; Scenario.sticker42; Scenario.photo] in
  exists runs tail,
    snd (lineWebhook W request Scenario.start) =
      advanced Scenario.start (List.concat (map fst runs) ++ tail)
        (map snd runs) /\
    Forall (fun run => completeRun (fst run) (snd run)) runs /\
    abortedRun tail /\
    (fst (lineWebhook W request Scenario.start) = Ok OK -> tail = []) /\
    let tr := (List.concat (map fst runs) ++ tail)%list in
    let rows := map snd runs in
    (List.length rows <= appends tr)%nat /\
    (appends tr <= lookups tr)%nat /\
    (lookups tr <= List.length rows + 1)%nat.
Proof.
  intros W request.
  exact (handler_stops_at_first_failure W request Scenario.start).
Defined.

(** ** Replaying a request *)

Lemma handleEvent_stateless (W : World) (event : jsval) :
  stateless W ->
  exists r tr rows,
    forall s, handleEvent W event s = (r, advanced s tr rows).
Proof.
  intros Hst.
  assert (Hstate : forall s tr rows tr' rows',
             tr' = (trace s ++ tr)%list -> rows' = (sheet s ++ rows)%list ->
             {| trace := tr'; sheet := rows' |} = advanced s tr rows).
  { intros s tr rows tr' rows' -> ->. reflexivity. }
  destruct (readEvent event) as [[p|]|e] eqn:Hread.
  - destruct (rbind (getProfile W [] (ef_userId p))
                (fun profile => JS.getProp profile "displayName"))
      as [name|e'] eqn:Hname.
    + destruct (Date.toISOString (dateParse W) (ef_timestamp p))
        as [iso|e] eqn:Hiso;
        [destruct (sheetsAppend W [] (rowOf iso (recordOf p name)))
           as [[]|e] eqn:Happ|].
      all: eexists _, _, _; intros s;
        rewrite handleEvent_readEvent, Hread; unfold bind;
        rewrite getUserDisplayName_run,
          (proj1 (Hst (trace s) []) (ef_userId p)), Hname;
        rewrite appendToGoogleSheet_run; cbn [timestamp recordOf trace sheet];
        rewrite Hiso;
        try (rewrite (proj2 (Hst _ []) _), Happ);
        f_equal; apply Hstate;
        [rewrite <- !app_assoc; reflexivity
        | first [reflexivity | symmetry; apply app_nil_r]].
    + destruct (Date.toISOString (dateParse W) (ef_timestamp p))
        as [iso|e] eqn:Hiso;
        [destruct (sheetsAppend W []
                     (rowOf iso (recordOf p (JStr "Unknown User"))))
           as [[]|e] eqn:Happ|].
      all: eexists _, _, _; intros s;
        rewrite handleEvent_readEvent, Hread; unfold bind;
        rewrite getUserDisplayName_run,
          (proj1 (Hst (trace s) []) (ef_userId p)), Hname;
        rewrite appendToGoogleSheet_run; cbn [timestamp recordOf trace sheet];
        rewrite Hiso;
        try (rewrite (proj2 (Hst _ []) _), Happ);
        f_equal; apply Hstate;
        [rewrite <- !app_assoc; reflexivity
        | first [reflexivity | symmetry; apply app_nil_r]].
  - exists (Ok tt), [], []. intros s.
    rewrite handleEvent_readEvent, Hread, advanced_nil. reflexivity.
  - exists (Throw e), [], []. intros s.
    rewrite handleEvent_readEvent, Hread, advanced_nil. reflexivity.
Qed.

Lemma forOf_stateless (W : World) (l : list jsval) :
  stateless W ->
  exists r tr rows,
    forall s, forOf (handleEvent W) l s = (r, advanced s tr rows).
Proof.
  intros Hst. induction l as [|event l (r & tr & rows & IH)].
  - exists (Ok tt), [], []. intros s. rewrite advanced_nil. reflexivity.
  - destruct (handleEvent_stateless W event Hst) as (r1 & tr1 & rows1 & H1).
    destruct r1 as [[]|e].
    + exists r, (tr1 ++ tr)%list, (rows1 ++ rows)%list. intros s.
      cbn [forOf]. unfold bind. rewrite H1, IH. apply f_equal.
      apply advanced_advanced.
    + exists (Throw e), tr1, rows1. intros s.
      cbn [forOf]. unfold bind. rewrite H1. reflexivity.
Qed.

(** No deduplication: when the collaborators answer the same way whatever
    happened before, what a request adds to the trace and to the sheet
    does not depend on the state it starts from, so a second delivery of
    the same request appends the same rows a second time. *)
Theorem replay_appends_rows_again (W : World) (request : Request) :
  stateless W ->
  exists resp tr rows,
    (forall s, lineWebhook W request s = (Ok resp, advanced s tr rows)) /\
    (forall s,
       sheet (snd (lineWebhook W request (snd (lineWebhook W request s)))) =
       (sheet s ++ rows ++ rows)%list).
Proof.
  intros Hst.
  assert (Hone : exists resp tr rows,
            forall s, lineWebhook W request s = (Ok resp, advanced s tr rows)).
  { assert (Hlog : forall msg s,
              logged s "error" msg = advanced s [Log "error" msg] []).
    { intros msg s. unfold logged, advanced. rewrite app_nil_r. reflexivity. }
    destruct (validateSignature W (verifierBody request)
                (LINE_CHANNEL_SECRET W)
                (header "x-line-signature" (headers request)))
      as [[|]|e] eqn:Hsig.
    - destruct (eventsOf request) as [elems|e] eqn:He.
      + destruct (forOf_stateless W elems Hst) as (r & tr & rows & Hfor).
        destruct r as [[]|e].
        * exists OK, tr, rows. intros s.
          rewrite lineWebhook_run, Hsig, He, Hfor. reflexivity.
        * exists InternalServerError,
            (tr ++ [Log "error" "Error processing LINE webhook"])%list, rows.
          intros s. rewrite lineWebhook_run, Hsig, He, Hfor.
          unfold logged, advanced. cbn [trace sheet].
          rewrite <- app_assoc. reflexivity.
      + eexists _, _, _. intros s.
        rewrite lineWebhook_run, Hsig, He, Hlog. reflexivity.
    - eexists _, _, _. intros s. rewrite lineWebhook_run, Hsig, Hlog.
      reflexivity.
    - eexists _, _, _. intros s. rewrite lineWebhook_run, Hsig, Hlog.
      reflexivity. }
  destruct Hone as (resp & tr & rows & Hrun).
  exists resp, tr, rows. split; [exact Hrun|].
  intros s. rewrite !Hrun. cbn [snd advanced sheet].
  rewrite <- app_assoc. reflexivity.
Qed.

Lemma replay_appends_rows_again_witness :
  exists resp tr rows,
    (forall s,
       lineWebhook (Scenario.friendly "Alice") (Scenario.batch [Scenario.hi]) s
       = (Ok resp, advanced s tr rows)) /\
    (forall s,
       sheet (snd (lineWebhook (Scenario.friendly "Alice")
                     (Scenario.batch [Scenario.hi])
                     (snd (lineWebhook (Scenario.friendly "Alice")
                             (Scenario.batch [Scenario.hi]) s)))) =
       (sheet s ++ rows ++ rows)%list).
Proof.
  apply (replay_appends_rows_again (Scenario.friendly "Alice")
           (Scenario.batch [Scenario.hi])).
  intros tr tr'. split; intros; reflexivity.
Defined.

Example replay_scenario :
  sheet (snd (lineWebhook (Scenario.friendly "Alice")
                (Scenario.batch [Scenario.hi])
                (snd (lineWebhook (Scenario.friendly "Alice")
                        (Scenario.batch [Scenario.hi]) Scenario.start))))
  = [Scenario.hiRow; Scenario.hiRow].
Proof. reflexivity. Qed.

(** ** Skipped events *)

Lemma forOf_kept (W : World) (l : list jsval) (s : State) :
  forOf (handleEvent W) l s = forOf (handleEvent W) (filter kept l) s.
Proof.
  revert s. induction l as [|event l IH]; intros s; [reflexivity|].
  cbn [filter]. unfold kept at 1.
  destruct (notMessage event) eqn:Hskip; cbn [negb forOf]; unfold bind.
  - rewrite handleEvent_readEvent, (notMessage_readEvent _ Hskip). apply IH.
  - destruct (handleEvent W event s) as [[[]|e] s1]; [apply IH | reflexivity].
Qed.

(** Events whose type is not "message" are invisible: a batch and the
    same batch without them, both passing the signature check alike, get
    the same answer and leave the same trace and the same sheet. *)
Theorem skipped_events_are_invisible (W : World) (request request' : Request)
  (elems : list jsval) (s : State) :
  eventsOf request = Ok elems ->
  eventsOf request' = Ok (filter kept elems) ->
  validateSignature W (verifierBody request) (LINE_CHANNEL_SECRET W)
    (header "x-line-signature" (headers request)) =
  validateSignature W (verifierBody request') (LINE_CHANNEL_SECRET W)
    (header "x-line-signature" (headers request')) ->
  lineWebhook W request s = lineWebhook W request' s.
Proof.
  intros He He' Hsig.
  rewrite !lineWebhook_run, Hsig, He, He', (forOf_kept W elems s).
  reflexivity.
Qed.

Lemma skipped_events_are_invisible_witness :
  lineWebhook (Scenario.friendly "Alice")
    (Scenario.batch [Scenario.follow; Scenario.hi; Scenario.follow;
                     Scenario.sticker42]) Scenario.start =
  lineWebhook (Scenario.friendly "Alice")
    (Scenario.batch [Scenario.hi; Scenario.sticker42]) Scenario.start.
Proof.
  apply (skipped_events_are_invisible (Scenario.friendly "Alice")
           (Scenario.batch [Scenario.follow; Scenario.hi; Scenario.follow;
                            Scenario.sticker42])
           (Scenario.batch [Scenario.hi; Scenario.sticker42])
           [Scenario.follow; Scenario.hi; Scenario.follow; Scenario.sticker42]
           Scenario.start);
    reflexivity.
Defined.

(** ** The helpers at their edges *)

(** [getUserDisplayName] always returns, whatever the lookup does: after
    exactly one lookup, without an append request and without touching
    the sheet. *)
Theorem getUserDisplayName_never_throws (W : World) (uid : jsval) (s : State) :
  exists name,
    fst (getUserDisplayName W uid s) = Ok name /\
    lookups (trace (snd (getUserDisplayName W uid s))) =
      (lookups (trace s) + 1)%nat /\
    appends (trace (snd (getUserDisplayName W uid s))) = appends (trace s) /\
    sheet (snd (getUserDisplayName W uid s)) = sheet s.
Proof.
  rewrite getUserDisplayName_run.
  destruct (rbind (getProfile W (trace s) uid)
              (fun profile => JS.getProp profile "displayName")) as [name|e];
    eexists; cbn [fst snd trace sheet];
    rewrite ?lookups_app, ?appends_app; cbn; repeat split; lia.
Qed.

(** A message event whose timestamp is not a valid date (it is missing,
    or beyond the range of dates) is looked up but never sent to the
    sheet: formatting the date throws a RangeError before any append
    request is made. *)
Theorem invalid_timestamp_is_not_appended (W : World) (event : jsval)
  (p : EventFields) (s : State) :
  readEvent event = Ok (Some p) ->
  Date.timeValue (dateParse W) (ef_timestamp p) = Ok None ->
  let s' := snd (handleEvent W event s) in
  fst (handleEvent W event s) = Throw (RangeError "Invalid time value") /\
  lookups (trace s') = (lookups (trace s) + 1)%nat /\
  appends (trace s') = appends (trace s) /\
  sheet s' = sheet s.
Proof.
  intros Hread Htime. cbn zeta.
  rewrite handleEvent_readEvent, Hread. unfold bind.
  rewrite getUserDisplayName_run.
  destruct (rbind (getProfile W (trace s) (ef_userId p))
              (fun profile => JS.getProp profile "displayName")) as [name|e];
    rewrite appendToGoogleSheet_run; cbn [timestamp recordOf trace sheet];
    unfold Date.toISOString; rewrite Htime; cbn [rbind fst snd trace sheet];
    rewrite ?lookups_app, ?appends_app; cbn; repeat split; lia.
Qed.

Lemma invalid_timestamp_is_not_appended_witness :
  let event :=
    JObj [("type", JStr "message");
          ("source", JObj [("type", JStr "user"); ("userId", JStr "U1")]);
          ("message", JObj [("id", JStr "M1"); ("type", JStr "text");
                            ("text", JStr "hi")])] in
  let s' := snd (handleEvent (Scenario.friendly "Alice") event
                   Scenario.start) in
  fst (handleEvent (Scenario.friendly "Alice") event Scenario.start)
  = Throw (RangeError "Invalid time value") /\
  lookups (trace s') = (lookups (trace Scenario.start) + 1)%nat /\
  appends (trace s') = appends (trace Scenario.start) /\
  sheet s' = sheet Scenario.start.
Proof.
  intros event.
  apply (invalid_timestamp_is_not_appended (Scenario.friendly "Alice") event
           {| ef_userId := JStr "U1"; ef_messageId := JStr "M1";
              ef_timestamp := JUndefined; ef_message := JStr "hi";
              ef_messageType := JStr "text" |} Scenario.start);
    reflexivity.
Defined.

(** A message event without a [source], or without a [message] (either
    absent or null), throws a TypeError before any lookup or append: the
    state is left as it was. *)
Theorem malformed_message_event_throws (W : World)
  (props : list (string * jsval)) (s : State) :
  field props "type" = JStr "message" ->
  nullish (field props "source") || nullish (field props "message") = true ->
  exists msg, handleEvent W (JObj props) s = (Throw (TypeError msg), s).
Proof.
  intros Hty Hbad. rewrite handleEvent_readEvent. unfold readEvent.
  rewrite !getProp_obj, Hty. cbn [rbind]. rewrite strictEqStr_refl.
  destruct (field props "source") as [| | | | | |source] eqn:Hs;
    cbn [JS.getProp rbind]; try (eexists; reflexivity);
    cbn [nullish orb] in Hbad;
    try (destruct (JS.lookup "userId" source); cbn [rbind]);
    destruct (field props "message"); try discriminate;
    cbn [JS.getProp rbind]; eexists; reflexivity.
Qed.

Lemma malformed_message_event_throws_witness :
  exists msg,
    handleEvent (Scenario.friendly "Alice")
      (JObj [("type", JStr "message"); ("timestamp", JNum 1700000000000);
             ("message", JObj [("id", JStr "M1"); ("type", JStr "text");
                               ("text", JStr "hi")])])
      Scenario.start = (Throw (TypeError msg), Scenario.start).
Proof.
  apply (malformed_message_event_throws (Scenario.friendly "Alice")
           [("type", JStr "message"); ("timestamp", JNum 1700000000000);
            ("message", JObj [("id", JStr "M1"); ("type", JStr "text");
                              ("text", JStr "hi")])] Scenario.start);
    reflexivity.
Defined.

(** ** The callable functions *)

Section CloudFacts.

Import Cloud.

Variable S : Services.

(** [getUserData] refuses a missing, empty or otherwise falsy [userId]
    with "userId is required", before any call: nothing is read, nothing
    is logged. *)
Theorem getUserData_requires_userId (data userId : jsval) (tr : list call) :
  JS.getProp data "userId" = Ok userId ->
  JS.truthy userId = false ->
  getUserData S data tr = (Fail (Error "userId is required"), tr).
Proof.
  intros Hget Hfalsy. unfold getUserData, andThen.
  rewrite Hget. cbn [liftJs pure]. rewrite Hfalsy. reflexivity.
Qed.

(** [getUserData] never writes and never pushes; it reads at most once;
    and it returns only the data of an existing document it has just
    read, under the [userId] of the request. *)
Theorem getUserData_reads_only (data : jsval) (tr : list call) :
  exists calls,
    snd (getUserData S data tr) = (tr ++ calls)%list /\
    filter isWrite calls = [] /\
    filter isSend calls = [] /\
    (List.length (filter isRead calls) <= 1)%nat /\
    forall obj,
      fst (getUserData S data tr) = Done obj ->
      exists userId d,
        JS.getProp data "userId" = Ok userId /\
        JS.truthy userId = true /\
        docGet S tr "users" userId = Done (Some d) /\
        calls = [DocGet "users" userId; Logged "info" "User data retrieved"] /\
        obj = [("success", WJson (JBool true)); ("data", WDoc (Some d))].
Proof.
  unfold getUserData, andThen, attempt, perform, logInfo, logError, failWith,
    pure.
  destruct (JS.getProp data "userId") as [userId|e] eqn:Hget; cbn [liftJs].
  - unfold pure. destruct (JS.truthy userId) eqn:Htruthy; cbn [negb].
    + destruct (docGet S tr "users" userId) as [[d|]|f] eqn:Hdoc;
        cbn [fst snd]; eexists; (split; [rewrite <- ?app_assoc; reflexivity|]);
        cbn; repeat split; try lia; try discriminate.
      intros obj Hobj. inversion Hobj. exists userId, d.
      repeat split; assumption.
    + exists []. cbn. rewrite app_nil_r. repeat split; try lia; discriminate.
  - unfold failWith. exists []. cbn. rewrite app_nil_r.
    repeat split; try lia; discriminate.
Qed.

(** [createUser] refuses a request whose [email] or [name] is missing or
    falsy with "Email and name are required", before any call: no
    document is written. *)
Theorem createUser_requires_email_and_name (data email name : jsval)
  (tr : list call) :
  JS.getProp data "email" = Ok email ->
  JS.getProp data "name" = Ok name ->
  JS.truthy email && JS.truthy name = false ->
  createUser S data tr = (Fail (Error "Email and name are required"), tr).
Proof.
  intros Hemail Hname Hfalsy. unfold createUser, andThen.
  rewrite Hemail. cbn [liftJs pure]. rewrite Hname. cbn [liftJs pure].
  rewrite <- negb_andb, Hfalsy. reflexivity.
Qed.

(** When [createUser] returns, it has written exactly one document, under
    the identifier it returns, holding the email and the name of the
    request (both truthy) and two server timestamps; it has read nothing
    and pushed nothing. *)
Theorem createUser_returns_what_it_wrote (data : jsval) (tr tr' : list call)
  (obj : object) :
  createUser S data tr = (Done obj, tr') ->
  exists email name id,
    JS.getProp data "email" = Ok email /\
    JS.getProp data "name" = Ok name /\
    JS.truthy email = true /\ JS.truthy name = true /\
    id = newId S tr "users" /\
    tr' = (tr ++ [DocSet "users" id
                    [("email", WJson email); ("name", WJson name);
                     ("createdAt", WServerTimestamp);
                     ("updatedAt", WServerTimestamp)];
                  Logged "info" "User created"])%list /\
    obj = [("success", WJson (JBool true)); ("userId", WJson (JStr id));
           ("message", WJson (JStr "User created successfully"))].
Proof.
  unfold createUser, andThen, attempt, perform, ask, logInfo, logError,
    failWith, pure.
  destruct (JS.getProp data "email") as [email|e]; cbn [liftJs];
    [|discriminate].
  unfold pure.
  destruct (JS.getProp data "name") as [name|e]; cbn [liftJs];
    [|discriminate].
  unfold pure.
  destruct (JS.truthy email) eqn:Hemail; cbn [negb orb]; [|discriminate].
  destruct (JS.truthy name) eqn:Hname; cbn [negb]; [|discriminate].
  destruct (docSet S tr "users" (newId S tr "users") _) as [[]|f];
    [|discriminate].
  intros H. inversion H. exists email, name, (newId S tr "users").
  rewrite <- app_assoc. repeat split; assumption.
Qed.

End CloudFacts.

Lemma getUserData_requires_userId_witness :
  Cloud.getUserData (Cloud.steady 0 Cloud.alice [])
    (JObj [("userId", JStr "")]) [] =
  (Cloud.Fail (Cloud.Error "userId is required"), []).
Proof.
  apply (getUserData_requires_userId (Cloud.steady 0 Cloud.alice [])
           (JObj [("userId", JStr "")]) (JStr "") []);
    reflexivity.
Defined.

Lemma createUser_requires_email_and_name_witness :
  Cloud.createUser (Cloud.steady 0 Cloud.alice [])
    (JObj [("email", JStr "bob@example.com")]) [] =
  (Cloud.Fail (Cloud.Error "Email and name are required"), []).
Proof.
  apply (createUser_requires_email_and_name (Cloud.steady 0 Cloud.alice [])
           (JObj [("email", JStr "bob@example.com")])
           (JStr "bob@example.com") JUndefined []);
    reflexivity.
Defined.

Lemma createUser_returns_what_it_wrote_witness :
  exists email name id,
    JS.getProp (JObj [("email", JStr "bob@example.com"); ("name", JStr "Bob")])
      "email" = Ok email /\
    JS.getProp (JObj [("email", JStr "bob@example.com"); ("name", JStr "Bob")])
      "name" = Ok name /\
    JS.truthy email = true /\ JS.truthy name = true /\
    id = Cloud.newId (Cloud.steady 0 Cloud.alice []) [] "users" /\
    [Cloud.DocSet "users" "auto-id-1"
       [("email", Cloud.WJson (JStr "bob@example.com"));
        ("name", Cloud.WJson (JStr "Bob"));
        ("createdAt", Cloud.WServerTimestamp);
        ("updatedAt", Cloud.WServerTimestamp)];
     Cloud.Logged "info" "User created"] =
    ([] ++ [Cloud.DocSet "users" id
              [("email", Cloud.WJson email); ("name", Cloud.WJson name);
               ("createdAt", Cloud.WServerTimestamp);
               ("updatedAt", Cloud.WServerTimestamp)];
            Cloud.Logged "info" "User created"])%list /\
    [("success", Cloud.WJson (JBool true));
     ("userId", Cloud.WJson (JStr "auto-id-1"));
     ("message", Cloud.WJson (JStr "User created successfully"))] =
    [("success", Cloud.WJson (JBool true)); ("userId", Cloud.WJson (JStr id));
     ("message", Cloud.WJson (JStr "User created successfully"))].
Proof.
  apply (createUser_returns_what_it_wrote (Cloud.steady 0 Cloud.alice [])
           (JObj [("email", JStr "bob@example.com"); ("name", JStr "Bob")])
           [] _ _).
  reflexivity.
Defined.

(** ** Push notifications *)

Section PushFacts.

Import Cloud.

Variable S : Services.

(** [sendNotification] refuses a request in which [userId], [title] or
    [body] is missing or falsy, before any call: nothing is read, no
    push is sent. *)
Theorem sendNotification_requires_all_fields (data userId title body : jsval)
  (tr : list call) :
  JS.getProp data "userId" = Ok userId ->
  JS.getProp data "title" = Ok title ->
  JS.getProp data "body" = Ok body ->
  JS.truthy userId && JS.truthy title && JS.truthy body = false ->
  sendNotification S data tr =
  (Fail (Error "userId, title, and body are required"), tr).
Proof.
  intros Hu Ht Hb Hfalsy. unfold sendNotification, andThen.
  rewrite Hu. cbn [liftJs pure]. rewrite Ht. cbn [liftJs pure].
  rewrite Hb. cbn [liftJs pure].
  rewrite <- !negb_andb, Hfalsy. reflexivity.
Qed.

(** One run of [sendNotification] past its validation, by the answers of
    the three services. *)
Lemma sendNotification_run (data userId title body : jsval) (tr : list call) :
  JS.getProp data "userId" = Ok userId ->
  JS.getProp data "title" = Ok title ->
  JS.getProp data "body" = Ok body ->
  JS.truthy userId && JS.truthy title && JS.truthy body = true ->
  let failed f calls :=
    (Fail f, (tr ++ calls ++ [Logged "error" "Error sending notification"])%list)
  in
  let get := DocGet "users" userId in
  sendNotification S data tr =
  match docGet S tr "users" userId with
  | Fail f => failed f [get]
  | Done None => failed (Error "User not found") [get]
  | Done (Some d) =>
      if negb (fieldTruthy (fieldOf (Some d) "fcmToken"))
      then failed (Error "User has no FCM token") [get]
      else
        let message :=
          [("notification", WMap [("title", WJson title); ("body", WJson body)]);
           ("token", WField (fieldOf (Some d) "fcmToken"))] in
        match messagingSend S (tr ++ [get]) message with
        | Fail f => failed f [get; MessagingSend message]
        | Done response =>
            let record :=
              [("userId", WJson userId); ("title", WJson title);
               ("body", WJson body); ("messageId", WJson (JStr response));
               ("sentAt", WServerTimestamp)] in
            let add := CollectionAdd "notifications" record in
            match collectionAdd S (tr ++ [get; MessagingSend message])
                    "notifications" record with
            | Fail f => failed f [get; MessagingSend message; add]
            | Done _ =>
                (Done [("success", WJson (JBool true));
                       ("messageId", WJson (JStr response))],
                 (tr ++ [get; MessagingSend message; add;
                         Logged "info" "Notification sent"])%list)
            end
        end
  end.
Proof.
  intros Hu Ht Hb Htruthy. cbn zeta.
  unfold sendNotification, andThen.
  rewrite Hu. cbn [liftJs pure]. rewrite Ht. cbn [liftJs pure].
  rewrite Hb. cbn [liftJs pure].
  rewrite <- !negb_andb, Htruthy. cbn [negb].
  unfold attempt, perform, andThen, logInfo, logError, failWith, pure.
  destruct (docGet S tr "users" userId) as [[d|]|f];
    rewrite <- ?app_assoc; try reflexivity.
  destruct (fieldTruthy (fieldOf (Some d) "fcmToken")); cbn [negb];
    rewrite <- ?app_assoc; [|reflexivity].
  destruct (messagingSend S _ _) as [response|f];
    rewrite <- ?app_assoc; cbn [app]; [|reflexivity].
  destruct (collectionAdd S _ _ _) as [[]|f]; rewrite <- ?app_assoc;
    reflexivity.
Qed.

(** What [sendNotification] never does: it sends at most one push, and
    only to a user whose document exists and holds a truthy [fcmToken];
    it records a notification only after the push service has accepted
    the push, and under the message identifier that service returned. *)
Theorem push_only_to_registered_user (data userId title body : jsval)
  (tr : list call) :
  JS.getProp data "userId" = Ok userId ->
  JS.getProp data "title" = Ok title ->
  JS.getProp data "body" = Ok body ->
  exists calls,
    snd (sendNotification S data tr) = (tr ++ calls)%list /\
    (List.length (filter isSend calls) <= 1)%nat /\
    (filter isSend calls <> [] ->
     exists d,
       docGet S tr "users" userId = Done (Some d) /\
       fieldTruthy (fieldOf (Some d) "fcmToken") = true) /\
    (forall record,
       In (CollectionAdd "notifications" record) calls ->
       exists message response,
         In (MessagingSend message) calls /\
         messagingSend S (tr ++ [DocGet "users" userId]) message
         = Done response /\
         In ("messageId", WJson (JStr response)) record).
Proof.
  intros Hu Ht Hb.
  destruct (JS.truthy userId && JS.truthy title && JS.truthy body)
    eqn:Htruthy.
  2: { unfold sendNotification, andThen.
       rewrite Hu. cbn [liftJs pure]. rewrite Ht. cbn [liftJs pure].
       rewrite Hb. cbn [liftJs pure].
       rewrite <- !negb_andb, Htruthy. cbn [negb failWith].
       exists []. cbn. rewrite app_nil_r.
       split; [reflexivity|]. split; [lia|]. split; [congruence|].
       intros record []. }
  rewrite (sendNotification_run data userId title body tr Hu Ht Hb Htruthy).
  cbn zeta.
  destruct (docGet S tr "users" userId) as [[d|]|f] eqn:Hdoc.
  2, 3: eexists; cbn [snd]; (split; [reflexivity|]);
    cbn [In filter isSend List.length app];
    (split; [lia|]); (split; [congruence|]);
    intros record [H|[H|[]]]; discriminate H.
  destruct (fieldTruthy (fieldOf (Some d) "fcmToken")) eqn:Htoken; cbn [negb].
  2: { eexists; cbn [snd]; (split; [reflexivity|]).
       cbn [In filter isSend List.length app].
       split; [lia|]. split; [congruence|].
       intros record [H|[H|[]]]; discriminate H. }
  destruct (messagingSend S (tr ++ [DocGet "users" userId]) _)
    as [response|f] eqn:Hsend.
  2: { eexists; cbn [snd]; (split; [reflexivity|]).
       cbn [In filter isSend List.length app].
       split; [lia|].
       split; [intros _; exists d; split; [reflexivity | exact Htoken]|].
       intros record [H|[H|[H|[]]]]; discriminate H. }
  destruct (collectionAdd S _ _ _) as [[]|f];
    eexists; cbn [snd]; (split; [reflexivity|]);
    cbn [In filter isSend List.length app];
    (split; [lia|]);
    (split; [intros _; exists d; split; [reflexivity | exact Htoken]|]);
    intros record [H|[H|[H|[H|[]]]]]; try discriminate H;
    inversion H; subst record;
    eexists _, response; (split; [right; left; reflexivity|]);
    (split; [exact Hsend|]); cbn [In]; tauto.
Qed.

(** The push and its record are not atomic: when the push service accepts
    the push and the store then refuses the record, the function throws
    that failure although the push has been sent. *)
Theorem push_sent_record_failed (data userId title body : jsval)
  (tr : list call) (d : document) (response : string) (f : failure) :
  JS.getProp data "userId" = Ok userId ->
  JS.getProp data "title" = Ok title ->
  JS.getProp data "body" = Ok body ->
  JS.truthy userId && JS.truthy title && JS.truthy body = true ->
  docGet S tr "users" userId = Done (Some d) ->
  fieldTruthy (fieldOf (Some d) "fcmToken") = true ->
  let get := DocGet "users" userId in
  let message :=
    [("notification", WMap [("title", WJson title); ("body", WJson body)]);
     ("token", WField (fieldOf (Some d) "fcmToken"))] in
  let record :=
    [("userId", WJson userId); ("title", WJson title); ("body", WJson body);
     ("messageId", WJson (JStr response)); ("sentAt", WServerTimestamp)] in
  messagingSend S (tr ++ [get]) message = Done response ->
  collectionAdd S (tr ++ [get; MessagingSend message]) "notifications" record
  = Fail f ->
  fst (sendNotification S data tr) = Fail f /\
  In (MessagingSend message) (snd (sendNotification S data tr)).
Proof.
  intros Hu Ht Hb Htruthy Hdoc Htoken get message record Hsend Hadd.
  rewrite (sendNotification_run data userId title body tr Hu Ht Hb Htruthy).
  cbn zeta. rewrite Hdoc, Htoken. cbn [negb].
  fold get. fold message. rewrite Hsend. fold record. rewrite Hadd.
  cbn [fst snd]. split; [reflexivity|].
  apply in_or_app. right. cbn. tauto.
Qed.

End PushFacts.

Lemma sendNotification_requires_all_fields_witness :
  Cloud.sendNotification (Cloud.steady 0 Cloud.alice [])
    (JObj [("userId", JStr "U1"); ("title", JStr "Hello")]) [] =
  (Cloud.Fail (Cloud.Error "userId, title, and body are required"), []).
Proof.
  apply (sendNotification_requires_all_fields (Cloud.steady 0 Cloud.alice [])
           (JObj [("userId", JStr "U1"); ("title", JStr "Hello")])
           (JStr "U1") (JStr "Hello") JUndefined []);
    reflexivity.
Defined.

Lemma push_only_to_registered_user_witness :
  let S := Cloud.steady 0 Cloud.alice [] in
  let data := JObj [("userId", JStr "U1"); ("title", JStr "Hello");
                    ("body", JStr "World")] in
  exists calls,
    snd (Cloud.sendNotification S data []) = ([] ++ calls)%list /\
    (List.length (filter Cloud.isSend calls) <= 1)%nat /\
    (filter Cloud.isSend calls <> [] ->
     exists d,
       Cloud.docGet S [] "users" (JStr "U1") = Cloud.Done (Some d) /\
       Cloud.fieldTruthy (Cloud.fieldOf (Some d) "fcmToken") = true) /\
    (forall record,
       In (Cloud.CollectionAdd "notifications" record) calls ->
       exists message response,
         In (Cloud.MessagingSend message) calls /\
         Cloud.messagingSend S ([] ++ [Cloud.DocGet "users" (JStr "U1")])
           message = Cloud.Done response /\
         In ("messageId", Cloud.WJson (JStr response)) record).
Proof.
  intros S data.
  apply (push_only_to_registered_user S data (JStr "U1") (JStr "Hello")
           (JStr "World") []);
    reflexivity.
Defined.

Lemma push_sent_record_failed_witness :
  let S := Cloud.storeReadOnly 0 Cloud.alice [] in
  let data := JObj [("userId", JStr "U1"); ("title", JStr "Hello");
                    ("body", JStr "World")] in
  fst (Cloud.sendNotification S data []) =
    Cloud.Fail (Cloud.Error "PERMISSION_DENIED") /\
  In (Cloud.MessagingSend
        [("notification",
          Cloud.WMap [("title", Cloud.WJson (JStr "Hello"));
                      ("body", Cloud.WJson (JStr "World"))]);
         ("token", Cloud.WField (Cloud.Json (JStr "tok-1")))])
     (snd (Cloud.sendNotification S data [])).
Proof.
  intros S data.
  apply (push_sent_record_failed S data (JStr "U1") (JStr "Hello")
           (JStr "World") [] Cloud.alice "projects/p/messages/1"
           (Cloud.Error "PERMISSION_DENIED"));
    reflexivity.
Defined.

(** ** The triggers and the scheduled job *)

Section TriggerFacts.

Import Cloud.

Variable S : Services.


(** The audit trail and its cleanup agree: the entry [onUserUpdated] adds
    goes to the collection "audit_logs" and carries a server timestamp
    under "timestamp", which are the collection and the field that the
    query of [dailyCleanup] selects on. *)
Theorem audit_entries_are_what_cleanup_selects (userId : string)
  (change : option (document * document)) (tr tr' : list call) :
  exists entry cutoff,
    snd (onUserUpdated S userId change tr) =
      (tr ++ [Logged "info" "User updated trigger";
              CollectionAdd "audit_logs" entry])%list /\
    In ("timestamp", WServerTimestamp) entry /\
    In (QueryGet "audit_logs" "timestamp" "<" (WDate cutoff))
       (snd (dailyCleanup S tr')).
Proof.
  eexists _, (cutoffDate S (tr' ++ [Logged "info" "Daily cleanup job started"])).
  split; [|split].
  - unfold onUserUpdated, andThen, logInfo, perform. cbn [snd].
    rewrite <- app_assoc. reflexivity.
  - cbn [In]. tauto.
  - unfold dailyCleanup, andThen, attempt, ask, logInfo, logError, perform,
      failWith.
    destruct (queryGet S _ _ _ _ _) as [docs|f]; cbn [snd].
    + destruct (batchCommit S _ _) as [[]|f]; cbn [snd];
        rewrite <- !app_assoc; apply in_or_app; right; cbn [app In]; tauto.
    + rewrite <- !app_assoc. apply in_or_app. right. cbn [app In]. tauto.
Qed.

(** One run of [dailyCleanup], by the answers of the query and of the
    commit. *)
Lemma dailyCleanup_run (tr : list call) :
  let tr0 := (tr ++ [Logged "info" "Daily cleanup job started"])%list in
  let query :=
    QueryGet "audit_logs" "timestamp" "<" (WDate (cutoffDate S tr0)) in
  dailyCleanup S tr =
  match queryGet S tr0 "audit_logs" "timestamp" "<"
          (WDate (cutoffDate S tr0)) with
  | Fail f =>
      (Fail f, (tr0 ++ [query; Logged "error" "Daily cleanup failed"])%list)
  | Done docs =>
      match batchCommit S (tr0 ++ [query]) (refsOf docs) with
      | Fail f =>
          (Fail f,
           (tr0 ++ [query; BatchCommit (refsOf docs);
                    Logged "error" "Daily cleanup failed"])%list)
      | Done _ =>
          (Done tt,
           (tr0 ++ [query; BatchCommit (refsOf docs);
                    Logged "info" "Daily cleanup completed"])%list)
      end
  end.
Proof.
  cbn zeta.
  unfold dailyCleanup, andThen, attempt, ask, logInfo, logError, perform,
    failWith.
  destruct (queryGet S _ _ _ _ _) as [docs|f];
    [|rewrite <- !app_assoc; reflexivity].
  destruct (batchCommit S _ _) as [[]|f]; rewrite <- !app_assoc; reflexivity.
Qed.

(** [dailyCleanup] deletes exactly what its query found: the one batch it
    commits holds one delete per document of the snapshot, in the order
    of the snapshot, all in "audit_logs"; when the query fails nothing is
    committed; and a failure of the query or of the commit is thrown on
    as it is. *)
Theorem cleanup_deletes_what_it_found (tr : list call) :
  let tr0 := (tr ++ [Logged "info" "Daily cleanup job started"])%list in
  let answer :=
    queryGet S tr0 "audit_logs" "timestamp" "<" (WDate (cutoffDate S tr0)) in
  exists calls,
    snd (dailyCleanup S tr) = (tr ++ calls)%list /\
    (forall deletes,
       In (BatchCommit deletes) calls ->
       exists docs,
         answer = Done docs /\
         deletes = refsOf docs /\
         map snd deletes = map fst docs /\
         Forall (fun ref => fst ref = "audit_logs") deletes) /\
    (List.length (filter isWrite calls) <= 1)%nat /\
    (forall f, answer = Fail f ->
               fst (dailyCleanup S tr) = Fail f /\ filter isWrite calls = []) /\
    (forall docs f,
       answer = Done docs ->
       batchCommit S (tr0 ++ [QueryGet "audit_logs" "timestamp" "<"
                                (WDate (cutoffDate S tr0))]) (refsOf docs)
       = Fail f ->
       fst (dailyCleanup S tr) = Fail f).
Proof.
  cbn zeta. rewrite dailyCleanup_run. cbn zeta.
  assert (Hrefs : forall docs,
            map snd (refsOf docs) = map fst docs /\
            Forall (fun ref => fst ref = "audit_logs") (refsOf docs)).
  { intros docs. unfold refsOf. split.
    - rewrite map_map. reflexivity.
    - apply Forall_forall. intros ref Hin. apply in_map_iff in Hin.
      destruct Hin as (d & <- & _). reflexivity. }
  destruct (queryGet S _ _ _ _ _) as [docs|f] eqn:Hq.
  - destruct (batchCommit S _ _) as [[]|f] eqn:Hc;
      eexists; cbn [fst snd]; (split; [rewrite <- app_assoc; reflexivity|]);
      cbn [app filter isWrite List.length];
      (split;
       [intros deletes Hin; cbn [In] in Hin;
        destruct Hin as [H|[H|[H|[H|[]]]]]; try discriminate H;
        inversion H; exists docs; destruct (Hrefs docs); repeat split;
        assumption|]);
      (split; [lia|]);
      (split; [intros f' H'; discriminate H'|]);
      intros docs' f' Hd Hf; inversion Hd; subst docs';
      rewrite Hc in Hf; congruence.
  - eexists; cbn [fst snd]; (split; [rewrite <- app_assoc; reflexivity|]).
    cbn [app filter isWrite List.length].
    split; [intros deletes Hin; cbn [In] in Hin;
            destruct Hin as [H|[H|[H|[]]]]; discriminate H|].
    split; [lia|].
    split; [intros f' H'; inversion H'; split; reflexivity|].
    intros docs' f' Hd. discriminate Hd.
Qed.

End TriggerFacts.

(** ** The retention window *)

Lemma year_of_era_bounds (doe : Z) :
  0 <= doe <= 146096 ->
  let yoe := (doe - doe / 1460 + doe / 36524 - doe / 146096) / 365 in
  0 <= yoe <= 399 /\ 0 <= doe - (365 * yoe + yoe / 4 - yoe / 100) <= 365.
Proof.
  intros H. cbn zeta. Z.to_euclidean_division_equations. lia.
Qed.

(** The calendar conversion is inverted by [daysFromCivil]: the date of
    a day number is a date of a month, and counting the days of that date
    gives the day number back. *)
Lemma daysFromCivil_civil (day : Z) :
  let '(y, m, d) := Date.civil day in
  1 <= m <= 12 /\ 1 <= d <= 31 /\ Cloud.daysFromCivil y m 1 + (d - 1) = day.
Proof.
  unfold Date.civil.
  set (z := day + 719468).
  set (era := z / 146097).
  set (doe := z - era * 146097).
  assert (Hdoe : 0 <= doe <= 146096).
  { subst doe era. Z.to_euclidean_division_equations. lia. }
  pose proof (year_of_era_bounds doe Hdoe) as Hy. cbn zeta in Hy.
  set (yoe := (doe - doe / 1460 + doe / 36524 - doe / 146096) / 365) in *.
  set (doy := doe - (365 * yoe + yoe / 4 - yoe / 100)) in *.
  destruct Hy as [Hyoe Hdoy].
  set (mp := (5 * doy + 2) / 153).
  assert (Hmp : 0 <= mp <= 11).
  { subst mp. Z.to_euclidean_division_equations. lia. }
  assert (Hd : 1 <= doy - (153 * mp + 2) / 5 + 1 <= 31).
  { subst mp. Z.to_euclidean_division_equations. lia. }
  unfold Cloud.daysFromCivil.
  destruct (mp <? 10) eqn:Hlt.
  - apply Z.ltb_lt in Hlt.
    replace (mp + 3 <=? 2) with false by (symmetry; apply Z.leb_gt; lia).
    replace (2 <? mp + 3) with true by (symmetry; apply Z.ltb_lt; lia).
    replace (mp + 3 - 3) with mp by lia.
    replace ((yoe + era * 400) / 400) with era
      by (Z.to_euclidean_division_equations; lia).
    replace (yoe + era * 400 - era * 400) with yoe by lia.
    split; [lia|]. split; [exact Hd|].
    unfold doy, doe, z. Z.to_euclidean_division_equations. lia.
  - apply Z.ltb_ge in Hlt.
    replace (mp - 9 <=? 2) with true by (symmetry; apply Z.leb_le; lia).
    replace (2 <? mp - 9) with false by (symmetry; apply Z.ltb_ge; lia).
    replace (mp - 9 + 9) with mp by lia.
    replace (yoe + era * 400 + 1 - 1) with (yoe + era * 400) by lia.
    replace ((yoe + era * 400) / 400) with era
      by (Z.to_euclidean_division_equations; lia).
    replace (yoe + era * 400 - era * 400) with yoe by lia.
    split; [lia|]. split; [exact Hd|].
    unfold doy, doe, z. Z.to_euclidean_division_equations. lia.
Qed.

(** [setDate(getDate() - 30)] moves a local time back by thirty days of
    24 hours, across month and year ends alike. *)
Lemma withDate_thirty_days_back (tlocal : Z) :
  Cloud.withDate tlocal (Cloud.getDate tlocal - 30) =
  tlocal - 30 * Date.msPerDay.
Proof.
  unfold Cloud.withDate, Cloud.getDate.
  pose proof (daysFromCivil_civil (tlocal / Date.msPerDay)) as H.
  destruct (Date.civil (tlocal / Date.msPerDay)) as [[y m] d].
  destruct H as (_ & _ & H).
  replace (Cloud.daysFromCivil y m 1 + (d - 30) - 1)
    with (tlocal / Date.msPerDay - 30) by lia.
  unfold Date.msPerDay. Z.to_euclidean_division_equations. lia.
Qed.

(** The cutoff of [dailyCleanup] lies thirty calendar days before now in
    local time; when local time has the same offset at both ends (as in
    UTC, or with no clock change in between), that is exactly
    2 592 000 000 ms before now. *)
Theorem cutoff_is_thirty_days_back (S : Cloud.Services) (tr : list Cloud.call)
  (t : Z) :
  Date.timeClip (Cloud.now S tr) = Some t ->
  let tlocal := t + Cloud.offsetAtUTC S t in
  Cloud.cutoffDate S tr =
    Date.timeClip (tlocal - 2592000000
                   - Cloud.offsetAtLocal S (tlocal - 2592000000)) /\
  (Cloud.offsetAtLocal S (tlocal - 2592000000) = Cloud.offsetAtUTC S t ->
   Cloud.cutoffDate S tr = Date.timeClip (t - 2592000000)).
Proof.
  intros Hnow. cbn zeta.
  assert (Hcut : Cloud.cutoffDate S tr =
                 Date.timeClip
                   (t + Cloud.offsetAtUTC S t - 2592000000
                    - Cloud.offsetAtLocal S
                        (t + Cloud.offsetAtUTC S t - 2592000000))).
  { unfold Cloud.cutoffDate. rewrite Hnow. cbn zeta.
    rewrite withDate_thirty_days_back.
    change (30 * Date.msPerDay) with 2592000000. reflexivity. }
  split; [exact Hcut|].
  intros Hsame. rewrite Hcut, Hsame. f_equal. lia.
Qed.

Lemma cutoff_is_thirty_days_back_witness :
  Cloud.cutoffDate (Cloud.steady 1709251200000 Cloud.alice []) [] =
  Some 1706659200000.
Proof.
  exact (proj2 (cutoff_is_thirty_days_back
                  (Cloud.steady 1709251200000 Cloud.alice []) []
                  1709251200000 eq_refl) eq_refl).
Defined.

Example cutoff_crosses_leap_february :
  option_map Date.isoFormat
    (Cloud.cutoffDate (Cloud.steady 1709251200000 Cloud.alice []) [])
  = Some "2024-01-31T00:00:00.000Z" /\
  Date.isoFormat 1709251200000 = "2024-03-01T00:00:00.000Z".
Proof. split; reflexivity. Qed.

(** ** The header row *)

(** [setupGoogleSheetHeaders] makes one request, an update of the range
    A1:F1 with one row of six headers, as many cells as every row that
    [appendToGoogleSheet] builds; it makes no other call than its log
    line, and a failure of the update is thrown on as it is. *)
Theorem headers_match_rows (S : Cloud.Services) (tr : list Cloud.call) :
  (forall iso data,
     map (@List.length jsval) Cloud.sheetHeaders =
     [List.length (rowOf iso data)]) /\
  (exists line,
     snd (Cloud.setupGoogleSheetHeaders S tr) =
     (tr ++ [Cloud.ValuesUpdate "Sheet1!A1:F1" Cloud.sheetHeaders;
             Cloud.Logged (fst line) (snd line)])%list) /\
  (forall f,
     Cloud.valuesUpdate S tr "Sheet1!A1:F1" Cloud.sheetHeaders = Cloud.Fail f ->
     fst (Cloud.setupGoogleSheetHeaders S tr) = Cloud.Fail f).
Proof.
  split; [intros iso data; reflexivity|].
  unfold Cloud.setupGoogleSheetHeaders, Cloud.attempt, Cloud.andThen,
    Cloud.perform, Cloud.logInfo, Cloud.logError, Cloud.failWith, Cloud.pure.
  destruct (Cloud.valuesUpdate S tr "Sheet1!A1:F1" Cloud.sheetHeaders)
    as [[]|f0]; cbn [fst snd]; split.
  - exists ("info", "Google Sheet headers set up successfully").
    rewrite <- app_assoc. reflexivity.
  - intros f Hf. discriminate Hf.
  - exists ("error", "Error setting up Google Sheet headers").
    rewrite <- app_assoc. reflexivity.
  - intros f Hf. inversion Hf. reflexivity.
Qed.

Lemma headers_match_rows_witness :
  fst (Cloud.setupGoogleSheetHeaders
         (Cloud.storeReadOnly 0 Cloud.alice []) []) =
  Cloud.Fail (Cloud.Error "PERMISSION_DENIED").
Proof.
  exact (proj2 (proj2 (headers_match_rows
                         (Cloud.storeReadOnly 0 Cloud.alice []) []))
           (Cloud.Error "PERMISSION_DENIED") eq_refl).
Defined.

(** ** Concrete runs of the functions *)

Lemma getUserData_reads_only_witness :
  let S := Cloud.steady 0 Cloud.alice [] in
  let data := JObj [("userId", JStr "U1")] in
  exists calls,
    snd (Cloud.getUserData S data []) = ([] ++ calls)%list /\
    filter Cloud.isWrite calls = [] /\
    filter Cloud.isSend calls = [] /\
    (List.length (filter Cloud.isRead calls) <= 1)%nat /\
    forall obj,
      fst (Cloud.getUserData S data []) = Cloud.Done obj ->
      exists userId d,
        JS.getProp data "userId" = Ok userId /\
        JS.truthy userId = true /\
        Cloud.docGet S [] "users" userId = Cloud.Done (Some d) /\
        calls = [Cloud.DocGet "users" userId;
                 Cloud.Logged "info" "User data retrieved"] /\
        obj = [("success", Cloud.WJson (JBool true));
               ("data", Cloud.WDoc (Some d))].
Proof.
  intros S data. exact (getUserData_reads_only S data []).
Defined.

Example getUserData_missing_user :
  Cloud.getUserData (Cloud.steady 0 Cloud.alice [])
    (JObj [("userId", JStr "U2")]) [] =
  (Cloud.Fail (Cloud.Error "User not found"),
   [Cloud.DocGet "users" (JStr "U2");
    Cloud.Logged "error" "Error getting user data"]).
Proof. reflexivity. Qed.


Lemma cleanup_deletes_what_it_found_witness :
  let S := Cloud.steady 1709251200000 Cloud.alice
             [("log-1", []); ("log-2", [])] in
  let tr0 := [Cloud.Logged "info" "Daily cleanup job started"] in
  let answer :=
    Cloud.queryGet S tr0 "audit_logs" "timestamp" "<"
      (Cloud.WDate (Cloud.cutoffDate S tr0)) in
  exists calls,
    snd (Cloud.dailyCleanup S []) = ([] ++ calls)%list /\
    (forall deletes,
       In (Cloud.BatchCommit deletes) calls ->
       exists docs,
         answer = Cloud.Done docs /\
         deletes = Cloud.refsOf docs /\
         map snd deletes = map fst docs /\
         Forall (fun ref => fst ref = "audit_logs") deletes) /\
    (List.length (filter Cloud.isWrite calls) <= 1)%nat /\
    (forall f, answer = Cloud.Fail f ->
               fst (Cloud.dailyCleanup S []) = Cloud.Fail f /\
               filter Cloud.isWrite calls = []) /\
    (forall docs f,
       answer = Cloud.Done docs ->
       Cloud.batchCommit S
         (tr0 ++ [Cloud.QueryGet "audit_logs" "timestamp" "<"
                    (Cloud.WDate (Cloud.cutoffDate S tr0))])
         (Cloud.refsOf docs) = Cloud.Fail f ->
       fst (Cloud.dailyCleanup S []) = Cloud.Fail f).
Proof.
  intros S tr0 answer. exact (cleanup_deletes_what_it_found S []).
Defined.

Example dailyCleanup_scenario :
  Cloud.dailyCleanup
    (Cloud.steady 1709251200000 Cloud.alice [("log-1", []); ("log-2", [])]) []
  = (Cloud.Done tt,
     [Cloud.Logged "info" "Daily cleanup job started";
      Cloud.QueryGet "audit_logs" "timestamp" "<"
        (Cloud.WDate (Some 1706659200000));
      Cloud.BatchCommit [("audit_logs", "log-1"); ("audit_logs", "log-2")];
      Cloud.Logged "info" "Daily cleanup completed"]).
Proof. reflexivity. Qed.
